(** * Water reminder bot ([main.py]): model and verified properties

    The program reads three settings from the process environment, builds a
    [WaterReminderBot], registers one recurring job with the [schedule]
    library, sends a welcome message over HTTP and then polls the scheduler
    once per second for ever.

    The embedding is a state-and-exception monad over an explicit process
    state (the heap of bot objects, the scheduler's job list, a step
    counter).  Everything the program cannot decide by itself (the replies
    of the HTTP endpoint, the wall clock, the random generator, signals
    that arrive while the process sleeps) is read from a [World].  Each
    call to a collaborator is recorded as an [event], so that statements
    about "what is sent, and in which order" are statements about lists
    of events. *)

From Stdlib Require Import ZArith List String Ascii Lia Bool.
From stdpp Require Import base option list strings gmap pretty.

Local Open Scope string_scope.
Local Open Scope list_scope.
Local Open Scope Z_scope.

(** ** Python values the program handles *)

Module Py.

(** The exception classes that occur; [KeyboardInterrupt] and
    [SystemExit] derive from [BaseException] directly, the others from
    [Exception]. *)
Inductive exn_class :=
| KeyboardInterrupt
| SystemExit
| ValueError
| OverflowError
| IndexError
| AttributeError
| RequestException
| OSError
| RuntimeError.

Record exn := Exn { exn_cls : exn_class; exn_str : string }.

(** [isinstance(e, Exception)]: what an [except Exception] clause catches. *)
Definition is_Exception (e : exn) : bool :=
  match exn_cls e with
  | KeyboardInterrupt | SystemExit => false
  | _ => true
  end.

(** [isinstance(e, KeyboardInterrupt)]. *)
Definition is_KeyboardInterrupt (e : exn) : bool :=
  match exn_cls e with
  | KeyboardInterrupt => true
  | _ => false
  end.

(** Truth value of an optional string: [None] and [''] are false. *)
Definition truthy (v : option string) : bool :=
  match v with
  | None => false
  | Some s => negb (String.eqb s "")
  end.

(** *** [int(str)] in base 10

    Surrounding white space is dropped, one sign is allowed, and the
    digits may be separated by single underscores; a literal of more
    than 4300 digits is refused (CPython's default
    [int_max_str_digits], from 3.11 on).  The model is exact on ASCII
    text ([is_ascii]); CPython also accepts non-ASCII decimal digits
    and white space, which are not modelled: statements that depend on
    a refusal are restricted to ASCII text. *)

Fixpoint is_ascii (s : string) : bool :=
  match s with
  | String c s' => (N_of_ascii c <? 128)%N && is_ascii s'
  | EmptyString => true
  end.

Definition is_space (c : ascii) : bool :=
  let n := Z.of_N (N_of_ascii c) in
  (n =? 32) || ((9 <=? n) && (n <=? 13)).

Definition digit_val (c : ascii) : option Z :=
  let n := Z.of_N (N_of_ascii c) in
  if (48 <=? n) && (n <=? 57) then Some (n - 48) else None.

Fixpoint lstrip (s : string) : string :=
  match s with
  | String c s' => if is_space c then lstrip s' else s
  | EmptyString => EmptyString
  end.

Fixpoint all_space (s : string) : bool :=
  match s with
  | String c s' => is_space c && all_space s'
  | EmptyString => true
  end.

(** Digits after the first one: a digit, or an underscore followed by a
    digit; the literal ends at the first run of trailing white space. *)
Fixpoint digits_tail (acc : Z) (s : string) : option Z :=
  match s with
  | EmptyString => Some acc
  | String c s' =>
      match digit_val c with
      | Some d => digits_tail (10 * acc + d) s'
      | None =>
          if Ascii.eqb c "_" then
            match s' with
            | String c' s'' =>
                match digit_val c' with
                | Some d => digits_tail (10 * acc + d) s''
                | None => None
                end
            | EmptyString => None
            end
          else if all_space s then Some acc
          else None
      end
  end.

Definition digits (s : string) : option Z :=
  match s with
  | String c s' =>
      match digit_val c with
      | Some d => digits_tail d s'
      | None => None
      end
  | EmptyString => None
  end.

(** The value of a literal, whatever its length. *)
Definition int_literal (s : string) : option Z :=
  match lstrip s with
  | String "-" s' => Z.opp <$> digits s'
  | String "+" s' => digits s'
  | s' => digits s'
  end.

(** The limit on the number of digits.  The conversion first scans
    the run of digits and underscores at the head of the literal; a
    doubled or trailing underscore ends the scan with "invalid
    literal", otherwise the digits of the run are counted. *)
Definition int_max_str_digits : nat := 4300.

Fixpoint scan_run (after_underscore : bool) (s : string) : option nat :=
  match s with
  | String c s' =>
      match digit_val c with
      | Some _ => S <$> scan_run false s'
      | None =>
          if Ascii.eqb c "_" then
            if after_underscore then None else scan_run true s'
          else if after_underscore then None else Some O
      end
  | EmptyString => if after_underscore then None else Some O
  end.

(** The literal without white space in front and without its sign. *)
Definition unsigned (s : string) : string :=
  match lstrip s with
  | String "-" s' => s'
  | String "+" s' => s'
  | s' => s'
  end.

(** [Some k]: the literal has [k] digits, more than are converted. *)
Definition too_long (s : string) : option nat :=
  match unsigned s with
  | String "_" _ => None
  | s' =>
      match scan_run false s' with
      | Some k => if (int_max_str_digits <? k)%nat then Some k else None
      | None => None
      end
  end.

(** *** [repr(str)], which the error message of [int] quotes

    Exact on ASCII text; bytes above 127 are copied as they are. *)

Definition double_quote : ascii := "034".

Fixpoint contains (c : ascii) (s : string) : bool :=
  match s with
  | String c' s' => Ascii.eqb c c' || contains c s'
  | EmptyString => false
  end.

Definition hex_char (n : N) : ascii :=
  if (n <? 10)%N then ascii_of_N (48 + n) else ascii_of_N (87 + n).

Definition repr_char (quote c : ascii) : string :=
  let n := N_of_ascii c in
  if Ascii.eqb c "\" then "\\"
  else if Ascii.eqb c quote then String "\" (String quote "")
  else if (n =? 9)%N then "\t"
  else if (n =? 10)%N then "\n"
  else if (n =? 13)%N then "\r"
  else if ((n <? 32) || (n =? 127))%N then
    String "\" (String "x" (String (hex_char (n / 16)) (String (hex_char (n mod 16)) "")))
  else String c "".

Fixpoint repr_body (quote : ascii) (s : string) : string :=
  match s with
  | String c s' => repr_char quote c +:+ repr_body quote s'
  | EmptyString => String quote ""
  end.

Definition repr (s : string) : string :=
  let quote :=
    if contains "'" s && negb (contains double_quote s) then double_quote else "'"%char in
  String quote (repr_body quote s).

(** [int(s)]: the value, or the [ValueError] raised. *)
Definition to_int (s : string) : exn + Z :=
  match too_long s with
  | Some k =>
      inl (Exn ValueError
             ("Exceeds the limit (4300 digits) for integer string conversion: value has "
              +:+ pretty (Z.of_nat k)
              +:+ " digits; use sys.set_int_max_str_digits() to increase the limit"))
  | None =>
      match int_literal s with
      | Some n => inr n
      | None =>
          inl (Exn ValueError
                 ("invalid literal for int() with base 10: "
                  +:+ String.substring 0 200 (repr s)))
      end
  end.

(** The value [int(s)] returns, if it returns. *)
Definition int_of_str (s : string) : option Z :=
  match to_int s with
  | inr n => Some n
  | inl _ => None
  end.

(** [str(n)] for an integer (of at most 4300 digits, the same limit). *)
Definition str_of_int (n : Z) : string := pretty n.

End Py.

(** ** [datetime]: the naive local clock

    A [datetime] is the number of microseconds since 0001-01-01 00:00:00
    local time, a [timedelta] a number of microseconds. *)

Module Datetime.

Definition us_per_minute : Z := 60000000.
Definition us_per_hour : Z := 3600000000.

(** [datetime.max] is 9999-12-31 23:59:59.999999, on day 3652059. *)
Definition end_of_time : Z := 3652059 * 86400 * 1000000.

Definition in_range (t : Z) : bool := (0 <=? t) && (t <? end_of_time).

Definition hour (t : Z) : Z := (t / us_per_hour) mod 24.
Definition minute (t : Z) : Z := (t / us_per_minute) mod 60.

Definition two_digits (n : Z) : string :=
  if n <? 10 then "0" +:+ pretty n else pretty n.

(** [t.strftime("%H:%M")]. *)
Definition strftime_HM (t : Z) : string :=
  two_digits (hour t) +:+ ":" +:+ two_digits (minute t).

(** [timedelta(minutes=n)]: the day count has to fit a C int and then
    the range of [timedelta]. *)
Definition timedelta_minutes (n : Z) : Py.exn + Z :=
  let days := n / 1440 in
  if (days <? - 2 ^ 31) || (2 ^ 31 <=? days) then
    inl (Py.Exn Py.OverflowError "Python int too large to convert to C int")
  else if (days <? - 999999999) || (999999999 <? days) then
    inl (Py.Exn Py.OverflowError
           ("days=" +:+ pretty days +:+ "; must have magnitude <= 999999999"))
  else inr (n * us_per_minute).

(** [t + d]. *)
Definition add (t d : Z) : Py.exn + Z :=
  if in_range (t + d) then inr (t + d)
  else inl (Py.Exn Py.OverflowError "date value out of range").

End Datetime.

(** ** Objects, events and the outside world *)

(** Instances of [class WaterReminderBot]. *)
Record WaterReminderBot := {
  bot_token : string;
  chat_id : string;
  base_url : string
}.

(** The callables handed to the scheduler: bound methods
    [bot.send_water_reminder], [self] being the address of [bot]. *)
Inductive callable :=
| send_water_reminder_of (self : nat).

(** What [requests.post] gives back. *)
Record response := { status_code : Z; text : string }.

Inductive post_outcome :=
| Replied (r : response)
| Failed (e : Py.exn).

(** Calls to collaborators, in the order the program makes them. *)
Inductive event :=
| Print (line : string)
| Post (url : string) (data : list (string * string))
| Every (minutes : Z) (f : callable)
| RunPending
| Sleep (seconds : Z).

Definition is_Post (e : event) : bool :=
  match e with Post _ _ => true | _ => false end.

Definition is_RunPending (e : event) : bool :=
  match e with RunPending => true | _ => false end.

Definition is_Every (e : event) : bool :=
  match e with Every _ _ => true | _ => false end.

(** The outside world, asked at step [k] of the run: the outcome of an
    HTTP POST, the clock, the draw of the random generator
    ([_randbelow]), and what [time.sleep] ends with ([None]: it returns;
    [Some e]: a signal handler raised [e], Ctrl-C giving
    [KeyboardInterrupt]). *)
Record World := {
  post_at : nat -> post_outcome;
  now_at : nat -> Z;
  randbelow_at : nat -> nat;
  sleep_at : nat -> option Py.exn
}.

(** One job of the scheduler ([schedule.Job]). *)
Record Job := {
  interval : Z;
  period : Z;
  next_run : Z;
  last_run : option Z;
  job_func : callable
}.

(** The process: the heap of bot objects, [schedule]'s job list, and
    the number of questions asked to the world so far. *)
Record state := {
  objs : list WaterReminderBot;
  jobs : list Job;
  tick : nat
}.

Definition initial : state := {| objs := []; jobs := []; tick := 0 |}.

Definition bump (st : state) : state :=
  {| objs := objs st; jobs := jobs st; tick := S (tick st) |}.

Definition set_jobs (js : list Job) (st : state) : state :=
  {| objs := objs st; jobs := js; tick := tick st |}.

Definition alloc (b : WaterReminderBot) (st : state) : state :=
  {| objs := objs st ++ [b]; jobs := jobs st; tick := tick st |}.

(** ** The monad of statements

    A statement run from a state emits events and either returns a
    value, raises, or is [Unfinished]: the polling loop is still
    going when the observation (a number of polls) ends. *)

Inductive outcome (A : Type) :=
| Ret (a : A)
| Raise (e : Py.exn)
| Unfinished.
Arguments Ret {A} a.
Arguments Raise {A} e.
Arguments Unfinished {A}.

Record run (A : Type) := Run {
  events : list event;
  result : outcome A;
  final : state
}.
Arguments Run {A} events result final.
Arguments events {A} r.
Arguments result {A} r.
Arguments final {A} r.

Definition M (A : Type) : Type := state -> run A.

Definition ret {A} (a : A) : M A := fun st => Run [] (Ret a) st.

Definition raise {A} (e : Py.exn) : M A := fun st => Run [] (Raise e) st.

Definition bind {A B} (m : M A) (k : A -> M B) : M B :=
  fun st =>
    let r := m st in
    match result r with
    | Ret a =>
        let r' := k a (final r) in
        Run (events r ++ events r') (result r') (final r')
    | Raise e => Run (events r) (Raise e) (final r)
    | Unfinished => Run (events r) Unfinished (final r)
    end.

Declare Scope py_scope.
Delimit Scope py_scope with py.
Notation "x <- c1 ;; c2" := (bind c1 (fun x => c2))
  (at level 100, c1 at next level, right associativity) : py_scope.
Notation "c1 ;; c2" := (bind c1 (fun _ => c2))
  (at level 100, right associativity) : py_scope.
Local Open Scope py_scope.

(** [try: body / except ...: handler]; [handler e] is [None] when no
    clause matches [e], which then propagates. *)
Definition try_except {A} (body : M A) (handler : Py.exn -> option (M A)) : M A :=
  fun st =>
    let r := body st in
    match result r with
    | Raise e =>
        match handler e with
        | Some h =>
            let r' := h (final r) in
            Run (events r ++ events r') (result r') (final r')
        | None => r
        end
    | _ => r
    end.

Definition emit (e : event) : M unit := fun st => Run [e] (Ret tt) st.

(** Ask the world, at the current step. *)
Definition ask {A} (f : nat -> A) : M A :=
  fun st => Run [] (Ret (f (tick st))) (bump st).

Definition get_jobs : M (list Job) := fun st => Run [] (Ret (jobs st)) st.

Definition put_jobs (js : list Job) : M unit :=
  fun st => Run [] (Ret tt) (set_jobs js st).

(** Read an attribute of the object at address [self]. *)
Definition getattr {A} (self : nat) (field : WaterReminderBot -> A) : M A :=
  fun st =>
    match objs st !! self with
    | Some b => Run [] (Ret (field b)) st
    | None => Run [] (Raise (Py.Exn Py.AttributeError "no such object")) st
    end.

Definition nl : string := String "010" EmptyString.

(** ** The collaborators: [print], [requests], [datetime], [random], [time] *)

Section Collaborators.

Variable w : World.

(** [print(line)]; writing to the console is taken to succeed. *)
Definition print (line : string) : M unit := emit (Print line).

(** [requests.post(url, data=data)]. *)
Definition requests_post (url : string) (data : list (string * string)) : M response :=
  emit (Post url data) ;;
  o <- ask (post_at w) ;;
  match o with
  | Replied r => ret r
  | Failed e => raise e
  end.

(** [datetime.now()]. *)
Definition datetime_now : M Z := ask (now_at w).

(** [random.choice(seq)]: [seq[_randbelow(len(seq))]]. *)
Definition random_choice {A} (seq : list A) : M A :=
  match seq with
  | [] => raise (Py.Exn Py.IndexError "Cannot choose from an empty sequence")
  | x :: _ =>
      k <- ask (randbelow_at w) ;;
      ret (nth (k mod length seq)%nat seq x)
  end.

(** [time.sleep(seconds)]. *)
Definition time_sleep (seconds : Z) : M unit :=
  emit (Sleep seconds) ;;
  o <- ask (sleep_at w) ;;
  match o with
  | None => ret tt
  | Some e => raise e
  end.

End Collaborators.

(** ** The [schedule] library, as far as the program uses it

    [every(n).minutes.do(f)] computes the first due time and appends the
    job to the default scheduler; [run_pending()] runs the jobs that are
    due, earliest first, and gives each its next due time. *)

Module Schedule.
Section Scheduler.

Variable w : World.
(** How a registered callable is run. *)
Variable call : callable -> M unit.

(** [Job._schedule_next_run]. *)
Definition schedule_next_run (j : Job) : M Job :=
  match Datetime.timedelta_minutes (interval j) with
  | inl e => raise e
  | inr p =>
      now <- datetime_now w ;;
      match Datetime.add now p with
      | inl e => raise e
      | inr t =>
          ret {| interval := interval j; period := p; next_run := t;
                 last_run := last_run j; job_func := job_func j |}
      end
  end.

(** [schedule.every(n).minutes.do(f)]. *)
Definition every_minutes_do (n : Z) (f : callable) : M unit :=
  emit (Every n f) ;;
  j <- schedule_next_run
         {| interval := n; period := 0; next_run := 0;
            last_run := None; job_func := f |} ;;
  js <- get_jobs ;;
  put_jobs (js ++ [j]).

(** [Job.should_run]. *)
Definition should_run (j : Job) : M bool :=
  now <- datetime_now w ;;
  ret (next_run j <=? now).

(** The due jobs with their positions in the job list. *)
Fixpoint runnable (i : nat) (js : list Job) : M (list (nat * Job)) :=
  match js with
  | [] => ret []
  | j :: js' =>
      due <- should_run j ;;
      rest <- runnable (S i) js' ;;
      ret (if due then (i, j) :: rest else rest)
  end.

(** [sorted], on [next_run]; stable. *)
Fixpoint insert_by_next_run (x : nat * Job) (l : list (nat * Job)) : list (nat * Job) :=
  match l with
  | [] => [x]
  | y :: l' =>
      if next_run (snd y) <? next_run (snd x) then y :: insert_by_next_run x l'
      else x :: l
  end.

Definition sorted (l : list (nat * Job)) : list (nat * Job) :=
  fold_right insert_by_next_run [] l.

(** [Job.run] for the job at position [i]: an overdue check against
    the clock (the program sets no deadline), the call, then
    [last_run] and the next due time. *)
Definition run_job (i : nat) (j : Job) : M unit :=
  _ <- datetime_now w ;;
  call (job_func j) ;;
  now <- datetime_now w ;;
  j' <- schedule_next_run
          {| interval := interval j; period := period j; next_run := next_run j;
             last_run := Some now; job_func := job_func j |} ;;
  js <- get_jobs ;;
  put_jobs (<[i := j']> js).

Fixpoint run_all (l : list (nat * Job)) : M unit :=
  match l with
  | [] => ret tt
  | (i, j) :: l' => run_job i j ;; run_all l'
  end.

(** [schedule.run_pending()]. *)
Definition run_pending : M unit :=
  emit RunPending ;;
  js <- get_jobs ;;
  due <- runnable 0 js ;;
  run_all (sorted due).

End Scheduler.
End Schedule.

(** ** [class WaterReminderBot] *)

Section Bot.

Variable w : World.
(** The module global [REMINDER_INTERVAL]. *)
Variable REMINDER_INTERVAL : Z.

(** [WaterReminderBot.__init__]: the fields of a new object. *)
Definition init (bot_token chat_id : string) : WaterReminderBot :=
  {| bot_token := bot_token;
     chat_id := chat_id;
     base_url := "https://api.telegram.org/bot" +:+ bot_token |}.

(** [WaterReminderBot(bot_token, chat_id)]: allocate, initialise, give
    the address. *)
Definition new (bot_token chat_id : string) : M nat :=
  fun st => Run [] (Ret (length (objs st))) (alloc (init bot_token chat_id) st).

Definition send_message (self : nat) (message : string) : M unit :=
  base <- getattr self base_url ;;
  let url := base +:+ "/sendMessage" in
  cid <- getattr self chat_id ;;
  let data := [ ("chat_id", cid); ("text", message); ("parse_mode", "HTML") ] in
  try_except
    (response <- requests_post w url data ;;
     if status_code response =? 200 then
       print ("✅ Message sent: " +:+ message)
     else
       print ("❌ Failed to send message: " +:+ text response))
    (fun e =>
       if Py.is_Exception e then
         Some (print ("❌ Error sending message: " +:+ Py.exn_str e))
       else None).

Definition messages : list string :=
  [ "💧 Time to drink water! Stay hydrated! 🚰";
    "🌊 Hydration check! Drink a glass of water now! 💙";
    "💦 Your body needs water! Take a sip! 🥤";
    "🚰 Water break time! Keep yourself healthy! 💧";
    "💙 Reminder: Drink water for better health! 🌊" ].

Definition send_water_reminder (self : nat) : M unit :=
  message <- random_choice w messages ;;
  now <- datetime_now w ;;
  let current_time := Datetime.strftime_HM now in
  let full_message := "⏰ <b>" +:+ current_time +:+ "</b>" +:+ nl +:+ message in
  send_message self full_message.

(** Calling a bound method. *)
Definition call (f : callable) : M unit :=
  match f with
  | send_water_reminder_of self => send_water_reminder self
  end.

Definition welcome_message : string :=
  "🎉 <b>Water Reminder Bot Activated!</b>" +:+ nl +:+
  "💧 You'll receive reminders every " +:+ Py.str_of_int REMINDER_INTERVAL +:+
  " minutes." +:+ nl +:+ nl +:+
  "🔧 Commands:" +:+ nl +:+
  "• Send 'stop' to pause" +:+ nl +:+
  "• Send 'start' to resume".

(** [while True: schedule.run_pending(); time.sleep(1)], observed for
    [polls] rounds. *)
Fixpoint poll_loop (polls : nat) : M unit :=
  match polls with
  | O => fun st => Run [] Unfinished st
  | S polls' =>
      Schedule.run_pending w call ;;
      time_sleep w 1 ;;
      poll_loop polls'
  end.

Definition start_reminders (polls : nat) (self : nat) : M unit :=
  print "🚀 Water reminder bot started!" ;;
  print ("⏱️ Reminder interval: " +:+ Py.str_of_int REMINDER_INTERVAL +:+ " minutes") ;;
  Schedule.every_minutes_do w REMINDER_INTERVAL (send_water_reminder_of self) ;;
  send_message self welcome_message ;;
  poll_loop polls.

End Bot.

(** ** Module level: settings, [main], and running the script *)

(** The module globals set at lines 68-70. *)
Record globals := {
  BOT_TOKEN : option string;
  CHAT_ID : option string;
  REMINDER_INTERVAL : Z
}.

(** [os.environ.get(key)]. *)
Definition environ_get (environ : gmap string string) (key : string) : option string :=
  environ !! key.

(** [int(os.environ.get('REMINDER_INTERVAL', 60))]: the default is
    already an integer, a value from the environment is parsed. *)
Definition load_interval (environ : gmap string string) : Py.exn + Z :=
  match environ_get environ "REMINDER_INTERVAL" with
  | None => inr 60
  | Some s => Py.to_int s
  end.

(** The three assignments, in order. *)
Definition load_globals (environ : gmap string string) : Py.exn + globals :=
  let bot_token := environ_get environ "BOT_TOKEN" in
  let chat_id := environ_get environ "CHAT_ID" in
  match load_interval environ with
  | inl e => inl e
  | inr n => inr {| BOT_TOKEN := bot_token; CHAT_ID := chat_id; REMINDER_INTERVAL := n |}
  end.

Section Main.

Variable w : World.
Variable g : globals.
(** Number of rounds of the polling loop that are observed. *)
Variable polls : nat.

Definition main : M unit :=
  if negb (Py.truthy (BOT_TOKEN g)) || negb (Py.truthy (CHAT_ID g)) then
    print "❌ Error: BOT_TOKEN and CHAT_ID environment variables are required!" ;;
    print "💡 Make sure you've set up these variables in Railway/Heroku" ;;
    ret tt
  else
    bot <- new (default "" (BOT_TOKEN g)) (default "" (CHAT_ID g)) ;;
    try_except
      (start_reminders w (REMINDER_INTERVAL g) polls bot)
      (fun e =>
         if Py.is_KeyboardInterrupt e then
           Some (print (nl +:+ "🛑 Bot stopped by user"))
         else if Py.is_Exception e then
           Some (print ("❌ Error: " +:+ Py.exn_str e))
         else None).

End Main.

(** Running the file as a script: the module body, then [main()]. *)
Definition script (environ : gmap string string) (w : World) (polls : nat) : run unit :=
  match load_globals environ with
  | inl e => Run [] (Raise e) initial
  | inr g => main w g polls initial
  end.

(** ** Sample worlds and runs *)

Definition ok_reply : post_outcome :=
  Replied {| status_code := 200; text := "{}" |}.

(** A quiet world: every POST is answered with 200, the clock stands at
    2024-01-01 14:30 and advances one second per question, nothing
    interrupts the sleep. *)
Definition calm : World := {|
  post_at := fun _ => ok_reply;
  now_at := fun k => 86400000000 * 738885 + 14 * 3600000000 + 30 * 60000000
                     + 1000000 * Z.of_nat k;
  randbelow_at := fun k => k;
  sleep_at := fun _ => None
|}.

Definition sample_environ : gmap string string :=
  <["BOT_TOKEN" := "123:ABC"]> (<["CHAT_ID" := "42"]> ∅).

Definition one_bot : state :=
  {| objs := [init "123:ABC" "42"]; jobs := []; tick := 0 |}.

(** A world whose endpoint is unreachable. *)
Definition offline : World := {|
  post_at := fun _ => Failed (Py.Exn Py.RequestException "connection refused");
  now_at := now_at calm;
  randbelow_at := randbelow_at calm;
  sleep_at := sleep_at calm
|}.

(** A world that is [w] except that every draw gives [i]. *)
Definition with_draw (i : nat) (w : World) : World := {|
  post_at := post_at w;
  now_at := now_at w;
  randbelow_at := fun _ => i;
  sleep_at := sleep_at w
|}.

(** A world in which Ctrl-C arrives during the first sleep. *)
Definition ctrl_c : World := {|
  post_at := post_at calm;
  now_at := now_at calm;
  randbelow_at := randbelow_at calm;
  sleep_at := fun _ => Some (Py.Exn Py.KeyboardInterrupt "")
|}.

Definition no_token : globals :=
  {| BOT_TOKEN := None; CHAT_ID := Some "42"; REMINDER_INTERVAL := 60 |}.

Definition configured : globals :=
  {| BOT_TOKEN := Some "123:ABC"; CHAT_ID := Some "42"; REMINDER_INTERVAL := 60 |}.

Definition empty_chat : globals :=
  {| BOT_TOKEN := Some "123:ABC"; CHAT_ID := Some ""; REMINDER_INTERVAL := 60 |}.

(** Settings with an interval no [timedelta] can hold. *)
Definition far_future : globals :=
  {| BOT_TOKEN := Some "123:ABC"; CHAT_ID := Some "42";
     REMINDER_INTERVAL := 10 ^ 20 |}.

(** The literal made of [k] times the digit 1. *)
Fixpoint ones (k : nat) : string :=
  match k with
  | O => EmptyString
  | S k' => String "1" (ones k')
  end.

(** No credentials, and an interval that does not parse. *)
Definition bad_interval_only : gmap string string :=
  <["REMINDER_INTERVAL" := "sixty"]> ∅.

(** The calls [start_reminders] makes in the quiet world, with one
    round of the loop observed. *)
Definition sample_startup : list event :=
  events (start_reminders calm 60 1 0 one_bot).

(** ** Vocabulary of the statements *)

(** [keeps_objs m]: whatever [m] does, the bot objects (all their
    fields) are the same afterwards. *)
Definition keeps_objs {A} (m : M A) : Prop :=
  forall st, objs (final (m st)) = objs st.

(** The call [send_message] makes for bot [b] and text [message]. *)
Definition delivery (b : WaterReminderBot) (message : string) : event :=
  Post (base_url b +:+ "/sendMessage")
       [ ("chat_id", chat_id b); ("text", message); ("parse_mode", "HTML") ].

(** The line that reports outcome [o] of the POST of [message]. *)
Definition outcome_line (message : string) (o : post_outcome) : string :=
  match o with
  | Replied resp =>
      if status_code resp =? 200 then "✅ Message sent: " +:+ message
      else "❌ Failed to send message: " +:+ text resp
  | Failed e => "❌ Error sending message: " +:+ Py.exn_str e
  end.

(** The text of a reminder composed from [template] at clock reading [now]. *)
Definition reminder_text (now : Z) (template : string) : string :=
  "⏰ <b>" +:+ Datetime.strftime_HM now +:+ "</b>" +:+ nl +:+ template.

(** The format [HH:MM] as the specification words it, written
    independently of the model of [strftime]: the two decimal digits of
    the hour, a colon, the two decimal digits of the minute. *)
Definition digit_char (d : Z) : ascii := ascii_of_N (48 + Z.to_N d).

Definition hh_mm (h m : Z) : string :=
  String (digit_char (h / 10)) (String (digit_char (h mod 10))
    (String ":"
      (String (digit_char (m / 10)) (String (digit_char (m mod 10)) "")))).

(** The specified text of a reminder at clock reading [t] (microseconds
    of local time): the hour of the day and the minute of the hour as
    [HH:MM] inside the fixed markup, a line break, the template. *)
Definition stamped (t : Z) (template : string) : string :=
  "⏰ <b>" +:+ hh_mm ((t / 3600000000) mod 24) ((t / 60000000) mod 60)
  +:+ "</b>" +:+ nl +:+ template.

(** The template the random generator selects at step [k] of world [w]. *)
Definition drawn (w : World) (k : nat) : string :=
  nth (randbelow_at w k mod 5)%nat messages "".

(** The events before the polling loop is entered, that is, before the
    first [schedule.run_pending()]. *)
Fixpoint before_loop (l : list event) : list event :=
  match l with
  | [] => []
  | e :: l' => if is_RunPending e then [] else e :: before_loop l'
  end.

(** Position of the first event that satisfies [p]. *)
Fixpoint index_of (p : event -> bool) (l : list event) : option nat :=
  match l with
  | [] => None
  | e :: l' => if p e then Some 0%nat else S <$> index_of p l'
  end.

(** A required setting counts as missing when it is absent or empty. *)
Definition missing (v : option string) : Prop := v = None \/ v = Some "".

(** Replace a set-but-empty value by an absent one. *)
Definition unset_if_empty (v : option string) : option string :=
  match v with
  | Some "" => None
  | _ => v
  end.

Definition diagnostic : list event :=
  [ Print "❌ Error: BOT_TOKEN and CHAT_ID environment variables are required!";
    Print "💡 Make sure you've set up these variables in Railway/Heroku" ].

(** The [except] clauses of [main]. *)
Definition shutdown_line (e : Py.exn) : string :=
  if Py.is_KeyboardInterrupt e then nl +:+ "🛑 Bot stopped by user"
  else "❌ Error: " +:+ Py.exn_str e.

(** ** The rest of the class, and further vocabulary *)

(** [WaterReminderBot.handle_commands]: a placeholder whose body is
    [pass]. *)
Definition handle_commands (self : nat) : M unit := ret tt.

(** Number of POSTs in a list of events. *)
Definition posts (l : list event) : nat := length (filter is_Post l).

(** The events that pace the loop. *)
Definition is_pace (e : event) : bool :=
  match e with
  | RunPending | Sleep _ => true
  | _ => false
  end.

(** [k] full rounds of the loop, as seen from outside. *)
Fixpoint rounds (k : nat) : list event :=
  match k with
  | O => []
  | S k' => RunPending :: Sleep 1 :: rounds k'
  end.

(** The texts the bot sends when the interval is [n]: the welcome
    text, or a time stamp followed by one of the five templates. *)
Definition bot_text (n : Z) (msg : string) : Prop :=
  msg = welcome_message n
  \/ exists now template, In template messages /\ msg = reminder_text now template.

(** What may appear in a run of the bot [b] with interval [n]: console
    lines, deliveries of its own texts, the registration of its own
    reminder method, and the pacing of the loop. *)
Definition bot_event (b : WaterReminderBot) (self : nat) (n : Z) (e : event) : Prop :=
  match e with
  | Print _ => True
  | Post url data => exists msg, bot_text n msg /\ e = delivery b msg
  | Every m f => m = n /\ f = send_water_reminder_of self
  | RunPending => True
  | Sleep secs => secs = 1
  end.

(** The scheduler only holds reminder jobs of the bot at [self]. *)
Definition jobs_of (self : nat) (js : list Job) : Prop :=
  Forall (fun j => job_func j = send_water_reminder_of self) js.

(** A statement that calls no collaborator. *)
Definition silent {A} (m : M A) : Prop := forall st, events (m st) = [].

(** The state [st] after [k] further questions to the world. *)
Definition later (k : nat) (st : state) : state :=
  {| objs := objs st; jobs := jobs st; tick := k + tick st |}.

(** A world in which a signal handler raises [SystemExit] during the
    sleep. *)
Definition sigterm : World := {|
  post_at := post_at calm;
  now_at := now_at calm;
  randbelow_at := randbelow_at calm;
  sleep_at := fun _ => Some (Py.Exn Py.SystemExit "")
|}.

(** A statement that, run to its end, returns or raises: only the
    polling loop can be cut off by the end of the observation. *)
Definition finishes {A} (m : M A) : Prop :=
  forall st, result (m st) <> Unfinished.

(** The job that [every(n).minutes.do(f)] appends when the clock reads
    [now] and [n] minutes make the period [p]. *)
Definition new_job (n p now : Z) (f : callable) : Job :=
  {| interval := n; period := p; next_run := now + p;
     last_run := None; job_func := f |}.

(** A world with a poor connection: every other POST fails in
    transport, the others are answered with status 500; the clock jumps
    by an hour from one reading to the next, seven times, and then
    falls back; nothing interrupts the sleep. *)
Definition flaky : World := {|
  post_at := fun k =>
    if Nat.even k then Replied {| status_code := 500; text := "Internal Server Error" |}
    else Failed (Py.Exn Py.RequestException "timed out");
  now_at := fun k => 86400000000 * 738885 + 3600000000 * (Z.of_nat k mod 7);
  randbelow_at := fun k => k;
  sleep_at := fun _ => None
|}.

(** The sample bot once a daily reminder has been registered in the
    [flaky] world. *)
Definition waiting : state :=
  final (Schedule.every_minutes_do flaky 1440 (send_water_reminder_of 0) one_bot).

(** The sample bot with an hourly reminder that is due at the first
    reading of the [flaky] clock. *)
Definition due_now : state :=
  {| objs := [init "123:ABC" "42"];
     jobs := [ {| interval := 60; period := 3600000000;
                  next_run := 86400000000 * 738885; last_run := None;
                  job_func := send_water_reminder_of 0 |} ];
     tick := 0 |}.

(** * Properties *)

(** ** The models of the built-ins on sample values *)

Example int_of_str_examples :
  List.map Py.int_of_str
    [ "60"; " 60 "; "+60"; "-5"; "0"; "007"; "1_0";
      "_1"; "1_"; "1__0"; ""; "  "; "- 5"; "0x10"; "6 0"; "60.0"; "+-1" ]
  = [ Some 60; Some 60; Some 60; Some (-5); Some 0; Some 7; Some 10;
      None; None; None; None; None; None; None; None; None; None ].
Proof. reflexivity. Qed.

Example str_of_int_examples :
  List.map Py.str_of_int [60; 0; -5] = ["60"; "0"; "-5"].
Proof. reflexivity. Qed.

Example strftime_examples :
  List.map Datetime.strftime_HM
    [ 0; 7 * 3600000000 + 4 * 60000000 + 9000000;
      86400000000 * 738000 + 14 * 3600000000 + 30 * 60000000 ]
  = [ "00:00"; "07:04"; "14:30" ].
Proof. reflexivity. Qed.

Example int_error_examples :
  List.map (fun s => match Py.to_int s with inl e => Py.exn_str e | inr n => Py.str_of_int n end)
    [ "abc"; "6 0"; String "009" "1x"; "it's"; " 42 " ]
  = [ "invalid literal for int() with base 10: 'abc'";
      "invalid literal for int() with base 10: '6 0'";
      "invalid literal for int() with base 10: '\t1x'";
      "invalid literal for int() with base 10: "
        +:+ String Py.double_quote ("it's" +:+ String Py.double_quote "");
      "42" ].
Proof. reflexivity. Qed.

(** Jobs due at the same time keep the order of their registration. *)
Example sorted_is_stable :
  let job t := {| interval := 1; period := 60000000; next_run := t;
                  last_run := None; job_func := send_water_reminder_of 0 |} in
  List.map fst (Schedule.sorted [ (0%nat, job 5); (1%nat, job 3); (2%nat, job 5); (3%nat, job 3) ])
  = [ 1%nat; 3%nat; 0%nat; 2%nat ].
Proof. reflexivity. Qed.

(** ** Reading off the three components of a sequence *)

Section MonadFacts.

Context {A B : Type}.

Lemma events_bind (m : M A) (k : A -> M B) st :
  events (bind m k st) =
  events (m st) ++
    match result (m st) with
    | Ret a => events (k a (final (m st)))
    | _ => []
    end.
Proof.
  unfold bind. destruct (result (m st)); simpl; auto using app_nil_r.
Qed.

Lemma result_bind (m : M A) (k : A -> M B) st :
  result (bind m k st) =
    match result (m st) with
    | Ret a => result (k a (final (m st)))
    | Raise e => Raise e
    | Unfinished => Unfinished
    end.
Proof. unfold bind. destruct (result (m st)); reflexivity. Qed.

Lemma final_bind (m : M A) (k : A -> M B) st :
  final (bind m k st) =
    match result (m st) with
    | Ret a => final (k a (final (m st)))
    | _ => final (m st)
    end.
Proof. unfold bind. destruct (result (m st)); reflexivity. Qed.

Lemma bind_returns (m : M A) (k : A -> M B) st a :
  result (m st) = Ret a ->
  bind m k st =
    Run (events (m st) ++ events (k a (final (m st))))
        (result (k a (final (m st)))) (final (k a (final (m st)))).
Proof. intros H. unfold bind. rewrite H. reflexivity. Qed.

Lemma bind_raises (m : M A) (k : A -> M B) st e :
  result (m st) = Raise e ->
  bind m k st = Run (events (m st)) (Raise e) (final (m st)).
Proof. intros H. unfold bind. rewrite H. reflexivity. Qed.

End MonadFacts.

Lemma run_eta {A} (r : run A) : r = Run (events r) (result r) (final r).
Proof. destruct r; reflexivity. Qed.

Lemma bind_ret {A B} (a : A) (k : A -> M B) st : bind (ret a) k st = k a st.
Proof. unfold bind, ret; simpl. symmetry; apply run_eta. Qed.

Lemma bind_ask {A B} (f : nat -> A) (k : A -> M B) st :
  bind (ask f) k st = k (f (tick st)) (bump st).
Proof. unfold bind, ask; simpl. symmetry; apply run_eta. Qed.

Lemma bind_emit {B} (e : event) (k : unit -> M B) st :
  bind (emit e) k st =
    Run (e :: events (k tt st)) (result (k tt st)) (final (k tt st)).
Proof. reflexivity. Qed.

Lemma bind_assoc {A B C} (m : M A) (k : A -> M B) (k' : B -> M C) st :
  bind (bind m k) k' st = bind m (fun a => bind (k a) k') st.
Proof.
  unfold bind. destruct (result (m st)) as [a| |]; simpl; try reflexivity.
  destruct (result (k a (final (m st)))); simpl; try reflexivity.
  rewrite app_assoc. reflexivity.
Qed.

Lemma try_except_caught {A} (body : M A) handler st e h :
  result (body st) = Raise e ->
  handler e = Some h ->
  try_except body handler st =
    Run (events (body st) ++ events (h (final (body st))))
        (result (h (final (body st)))) (final (h (final (body st)))).
Proof. intros Hr Hh. unfold try_except. rewrite Hr, Hh. reflexivity. Qed.

Lemma try_except_passes {A} (body : M A) handler st :
  (forall e, result (body st) = Raise e -> handler e = None) ->
  try_except body handler st = body st.
Proof.
  intros H. unfold try_except.
  destruct (result (body st)) as [a|e|] eqn:Hr; try reflexivity.
  rewrite (H e eq_refl). reflexivity.
Qed.

(** ** Statements that leave the heap of objects alone *)

Create HintDb frame discriminated.

Lemma keeps_ret {A} (a : A) : keeps_objs (ret a).
Proof. intros st. reflexivity. Qed.

Lemma keeps_raise {A} e : keeps_objs (@raise A e).
Proof. intros st. reflexivity. Qed.

Lemma keeps_emit e : keeps_objs (emit e).
Proof. intros st. reflexivity. Qed.

Lemma keeps_ask {A} (f : nat -> A) : keeps_objs (ask f).
Proof. intros st. reflexivity. Qed.

Lemma keeps_get_jobs : keeps_objs get_jobs.
Proof. intros st. reflexivity. Qed.

Lemma keeps_put_jobs js : keeps_objs (put_jobs js).
Proof. intros st. reflexivity. Qed.

Lemma keeps_getattr {A} self (field : WaterReminderBot -> A) :
  keeps_objs (getattr self field).
Proof. intros st. unfold getattr. destruct (objs st !! self); reflexivity. Qed.

Lemma keeps_bind {A B} (m : M A) (k : A -> M B) :
  keeps_objs m -> (forall a, keeps_objs (k a)) -> keeps_objs (bind m k).
Proof.
  intros Hm Hk st. rewrite final_bind.
  destruct (result (m st)); [rewrite Hk|..]; apply Hm.
Qed.

Lemma keeps_try_except {A} (body : M A) handler :
  keeps_objs body ->
  (forall e h, handler e = Some h -> keeps_objs h) ->
  keeps_objs (try_except body handler).
Proof.
  intros Hb Hh st. unfold try_except.
  destruct (result (body st)) as [a|e|]; try apply Hb.
  destruct (handler e) as [h|] eqn:He; [|apply Hb].
  simpl. rewrite (Hh e h He). apply Hb.
Qed.

#[local] Hint Resolve keeps_ret keeps_raise keeps_emit keeps_ask keeps_get_jobs
  keeps_put_jobs keeps_getattr : frame.

(** Goals [keeps_objs m] for straight-line code: split at every [bind],
    case on the values that select a branch. *)
Ltac frame :=
  repeat first
    [ progress (eauto with frame)
    | apply keeps_bind; [|intros ?]
    | match goal with
      | |- keeps_objs (match ?x with _ => _ end) => destruct x
      | |- keeps_objs (if ?x then _ else _) => destruct x
      end ].

Section Frames.

Variable w : World.

Lemma keeps_print line : keeps_objs (print line).
Proof. apply keeps_emit. Qed.

Lemma keeps_requests_post url data : keeps_objs (requests_post w url data).
Proof. unfold requests_post. frame. Qed.

Lemma keeps_datetime_now : keeps_objs (datetime_now w).
Proof. apply keeps_ask. Qed.

Lemma keeps_random_choice {A} (seq : list A) : keeps_objs (random_choice w seq).
Proof. unfold random_choice. frame. Qed.

Lemma keeps_time_sleep s : keeps_objs (time_sleep w s).
Proof. unfold time_sleep. frame. Qed.

Hint Resolve keeps_print keeps_requests_post keeps_datetime_now
  keeps_random_choice keeps_time_sleep : frame.

Lemma keeps_send_message self message : keeps_objs (send_message w self message).
Proof.
  unfold send_message. frame.
  apply keeps_try_except; [frame|].
  intros e h. destruct (Py.is_Exception e); intros [= <-]. frame.
Qed.

Hint Resolve keeps_send_message : frame.

Lemma keeps_send_water_reminder self : keeps_objs (send_water_reminder w self).
Proof. unfold send_water_reminder. frame. Qed.

Lemma keeps_call f : keeps_objs (call w f).
Proof. destruct f. apply keeps_send_water_reminder. Qed.

Hint Resolve keeps_send_water_reminder keeps_call : frame.

Lemma keeps_schedule_next_run j : keeps_objs (Schedule.schedule_next_run w j).
Proof. unfold Schedule.schedule_next_run. frame. Qed.

Hint Resolve keeps_schedule_next_run : frame.

Lemma keeps_every_minutes_do n f : keeps_objs (Schedule.every_minutes_do w n f).
Proof. unfold Schedule.every_minutes_do. frame. Qed.

Lemma keeps_runnable js : forall i, keeps_objs (Schedule.runnable w i js).
Proof.
  induction js as [|j js IH]; intros i; simpl; [frame|].
  unfold Schedule.should_run. frame.
Qed.

Lemma keeps_run_job i j : keeps_objs (Schedule.run_job w (call w) i j).
Proof. unfold Schedule.run_job. frame. Qed.

Lemma keeps_run_all l : keeps_objs (Schedule.run_all w (call w) l).
Proof.
  induction l as [|[i j] l IH]; simpl; [frame|].
  apply keeps_bind; [apply keeps_run_job|auto].
Qed.

Lemma keeps_run_pending : keeps_objs (Schedule.run_pending w (call w)).
Proof.
  unfold Schedule.run_pending. frame; auto using keeps_runnable, keeps_run_all.
Qed.

Lemma keeps_poll_loop polls : keeps_objs (poll_loop w polls).
Proof.
  induction polls as [|polls IH]; simpl; [intros st; reflexivity|].
  apply keeps_bind; [apply keeps_run_pending|intros _].
  apply keeps_bind; [apply keeps_time_sleep|auto].
Qed.

Lemma keeps_start_reminders n polls self :
  keeps_objs (start_reminders w n polls self).
Proof.
  unfold start_reminders.
  apply keeps_bind; [apply keeps_print|intros _].
  apply keeps_bind; [apply keeps_print|intros _].
  apply keeps_bind; [apply keeps_every_minutes_do|intros _].
  apply keeps_bind; [apply keeps_send_message|intros _].
  apply keeps_poll_loop.
Qed.

End Frames.

(** ** What [send_message] does, outcome by outcome *)

Section SendMessage.

Variable w : World.
Variables (self : nat) (b : WaterReminderBot) (message : string) (st : state).
Hypothesis Hself : objs st !! self = Some b.

Lemma send_message_replied resp :
  post_at w (tick st) = Replied resp ->
  send_message w self message st =
    Run [ delivery b message;
          Print (if status_code resp =? 200
                 then "✅ Message sent: " +:+ message
                 else "❌ Failed to send message: " +:+ text resp) ]
        (Ret tt) (bump st).
Proof.
  intros Hp.
  unfold send_message, bind, getattr, try_except, requests_post, emit, ask; simpl.
  rewrite Hself; simpl. rewrite Hself; simpl. rewrite Hp; simpl.
  destruct (status_code resp =? 200); reflexivity.
Qed.

Lemma send_message_caught e :
  post_at w (tick st) = Failed e ->
  Py.is_Exception e = true ->
  send_message w self message st =
    Run [ delivery b message;
          Print ("❌ Error sending message: " +:+ Py.exn_str e) ]
        (Ret tt) (bump st).
Proof.
  intros Hp He.
  unfold send_message, bind, getattr, try_except, requests_post, emit, ask; simpl.
  rewrite Hself; simpl. rewrite Hself; simpl. rewrite Hp; simpl.
  rewrite He. reflexivity.
Qed.

(** A [BaseException] that is no [Exception] (Ctrl-C while the
    request is in flight) is not caught here. *)
Lemma send_message_passes e :
  post_at w (tick st) = Failed e ->
  Py.is_Exception e = false ->
  send_message w self message st =
    Run [ delivery b message ] (Raise e) (bump st).
Proof.
  intros Hp He.
  unfold send_message, bind, getattr, try_except, requests_post, emit, ask; simpl.
  rewrite Hself; simpl. rewrite Hself; simpl. rewrite Hp; simpl.
  rewrite He. reflexivity.
Qed.

(** In every case the first thing [send_message] does is the POST,
    there is no second one, and at most one line is printed after it. *)
Lemma send_message_events :
  exists log, events (send_message w self message st) = delivery b message :: log
              /\ (log = [] \/ exists line, log = [Print line]).
Proof.
  destruct (post_at w (tick st)) as [resp|e] eqn:Hp.
  - rewrite (send_message_replied resp Hp). eauto.
  - destruct (Py.is_Exception e) eqn:He.
    + rewrite (send_message_caught e Hp He). eauto.
    + rewrite (send_message_passes e Hp He). eauto.
Qed.

End SendMessage.

(** C2: whatever the text, and whether the POST is answered (200 or
    not) or fails with a transport-level exception, [send_message] makes
    exactly one delivery attempt, prints one line about the outcome and
    returns normally; nothing is queued and the scheduler's jobs are as
    before, so the caller goes on. *)
Theorem send_message_single_attempt_never_raises
    (w : World) (self : nat) (b : WaterReminderBot) (message : string) (st : state) :
  objs st !! self = Some b ->
  (forall e, post_at w (tick st) = Failed e -> Py.is_Exception e = true) ->
  let r := send_message w self message st in
  result r = Ret tt
  /\ events r = [delivery b message;
                 Print (outcome_line message (post_at w (tick st)))]
  /\ length (filter is_Post (events r)) = 1%nat
  /\ jobs (final r) = jobs st
  /\ objs (final r) = objs st.
Proof.
  intros Hself Hexn r; subst r.
  destruct (post_at w (tick st)) as [resp|e] eqn:Hp.
  - rewrite (send_message_replied w self b message st Hself resp Hp); simpl.
    repeat split; eauto.
  - rewrite (send_message_caught w self b message st Hself e Hp (Hexn e eq_refl)); simpl.
    repeat split; eauto.
Qed.

Lemma send_message_single_attempt_never_raises_witness :
  result (send_message offline 0 "hello" one_bot) = Ret tt
  /\ events (send_message offline 0 "hello" one_bot)
     = [delivery (init "123:ABC" "42") "hello";
        Print (outcome_line "hello" (post_at offline (tick one_bot)))]
  /\ length (filter is_Post (events (send_message offline 0 "hello" one_bot))) = 1%nat
  /\ jobs (final (send_message offline 0 "hello" one_bot)) = jobs one_bot
  /\ objs (final (send_message offline 0 "hello" one_bot)) = objs one_bot.
Proof.
  apply (send_message_single_attempt_never_raises
           offline 0%nat (init "123:ABC" "42") "hello" one_bot).
  - reflexivity.
  - intros e He. simpl in He. injection He as <-. reflexivity.
Defined.

(** C5: a delivery is one POST to
    [https://api.telegram.org/bot<token>/sendMessage] whose form fields
    are exactly [chat_id], [text] and [parse_mode=HTML]; the success line
    is printed if and only if the status code of the reply is 200. *)
Theorem send_message_wire_call
    (w : World) (self : nat) (token destination message : string) (st : state) :
  objs st !! self = Some (init token destination) ->
  let r := send_message w self message st in
  filter is_Post (events r) =
    [ Post ("https://api.telegram.org/bot" +:+ token +:+ "/sendMessage")
           [ ("chat_id", destination); ("text", message); ("parse_mode", "HTML") ] ]
  /\ forall resp, post_at w (tick st) = Replied resp ->
       (In (Print ("✅ Message sent: " +:+ message)) (events r)
        <-> status_code resp = 200).
Proof.
  intros Hself r; subst r. split.
  - destruct (send_message_events w self _ message st Hself) as (log & -> & Hlog).
    destruct Hlog as [->|[line ->]]; reflexivity.
  - intros resp Hp.
    rewrite (send_message_replied w self _ message st Hself resp Hp).
    destruct (Z.eqb_spec (status_code resp) 200) as [Heq|Hne]; simpl.
    + split; auto.
    + split; [|contradiction].
      intros [H|[H|[]]]; discriminate H.
Qed.

Lemma send_message_wire_call_witness :
  filter is_Post (events (send_message calm 0 "hello" one_bot)) =
    [ Post ("https://api.telegram.org/bot" +:+ "123:ABC" +:+ "/sendMessage")
           [ ("chat_id", "42"); ("text", "hello"); ("parse_mode", "HTML") ] ]
  /\ forall resp, post_at calm (tick one_bot) = Replied resp ->
       (In (Print ("✅ Message sent: " +:+ "hello"))
           (events (send_message calm 0 "hello" one_bot))
        <-> status_code resp = 200).
Proof.
  apply (send_message_wire_call calm 0%nat "123:ABC" "42" "hello" one_bot).
  reflexivity.
Defined.

(** ** The time stamp *)

Example digit_chars :
  List.map digit_char [0; 1; 2; 3; 4; 5; 6; 7; 8; 9]
  = ["0"; "1"; "2"; "3"; "4"; "5"; "6"; "7"; "8"; "9"]%char.
Proof. reflexivity. Qed.

Lemma hour_range t : 0 <= Datetime.hour t < 24.
Proof. unfold Datetime.hour. apply Z.mod_pos_bound. lia. Qed.

Lemma minute_range t : 0 <= Datetime.minute t < 60.
Proof. unfold Datetime.minute. apply Z.mod_pos_bound. lia. Qed.

(** Below 100, [two_digits] writes the tens and the units. *)
Lemma two_digits_chars n :
  0 <= n < 100 ->
  Datetime.two_digits n =
    String (pretty_N_char (Z.to_N (n / 10)))
      (String (pretty_N_char (Z.to_N (n mod 10))) "").
Proof.
  intros Hn. unfold Datetime.two_digits.
  destruct n as [|q|q]; [reflexivity| |lia].
  change (pretty (Z.pos q)) with (pretty_N_go (N.pos q) "").
  rewrite pretty_N_go_step by lia.
  assert (Hunits : (N.pos q `mod` 10)%N = Z.to_N (Z.pos q mod 10)).
  { rewrite Z2N.inj_mod by lia. reflexivity. }
  assert (Htens : (N.pos q `div` 10)%N = Z.to_N (Z.pos q / 10)).
  { rewrite Z2N.inj_div by lia. reflexivity. }
  rewrite Hunits.
  destruct (Z.ltb_spec (Z.pos q) 10) as [Hlt|Hge].
  - assert (Hq0 : Z.pos q / 10 = 0) by (apply Z.div_small; lia).
    rewrite Htens, Hq0. rewrite pretty_N_go_0. reflexivity.
  - rewrite pretty_N_go_step
      by (rewrite Htens; apply N2Z.inj_lt; rewrite Z2N.id;
          [apply Z.div_str_pos; lia|apply Z.div_pos; lia]).
    assert (Hhi : ((N.pos q `div` 10) `div` 10)%N = 0%N).
    { apply N.div_small. rewrite Htens. apply N2Z.inj_lt.
      rewrite Z2N.id by (apply Z.div_pos; lia).
      change (Z.of_N 10) with 10. apply Z.div_lt_upper_bound; lia. }
    assert (Hlo : ((N.pos q `div` 10) `mod` 10)%N = (N.pos q `div` 10)%N).
    { apply N.mod_small. rewrite Htens. apply N2Z.inj_lt.
      rewrite Z2N.id by (apply Z.div_pos; lia).
      change (Z.of_N 10) with 10. apply Z.div_lt_upper_bound; lia. }
    rewrite Hhi, Hlo, pretty_N_go_0, Htens. reflexivity.
Qed.

Lemma two_digits_inj a c :
  0 <= a < 100 -> 0 <= c < 100 ->
  Datetime.two_digits a = Datetime.two_digits c -> a = c.
Proof.
  intros Ha Hc. rewrite !two_digits_chars by assumption.
  intros [= Htens Hunits].
  assert (Hb : forall n, 0 <= n < 100 ->
            (Z.to_N (n / 10) < 10)%N /\ (Z.to_N (n mod 10) < 10)%N).
  { intros n Hn. split; apply N2Z.inj_lt; rewrite Z2N.id;
      change (Z.of_N 10) with 10;
      try (apply Z.div_lt_upper_bound; lia); try (apply Z.div_pos; lia);
      apply Z.mod_pos_bound; lia. }
  apply pretty_N_char_inj in Htens; [|apply Hb; assumption..].
  apply pretty_N_char_inj in Hunits; [|apply Hb; assumption..].
  apply Z2N.inj in Htens; [|apply Z.div_pos; lia..].
  apply Z2N.inj in Hunits; [|apply Z.mod_pos_bound; lia..].
  rewrite (Z.div_mod a 10), (Z.div_mod c 10) by lia. congruence.
Qed.

Lemma pretty_N_char_digit d :
  0 <= d < 10 -> pretty_N_char (Z.to_N d) = digit_char d.
Proof.
  intros Hd.
  assert (Hcases : d = 0 \/ d = 1 \/ d = 2 \/ d = 3 \/ d = 4 \/ d = 5
                   \/ d = 6 \/ d = 7 \/ d = 8 \/ d = 9) by lia.
  repeat (destruct Hcases as [->|Hcases]; [reflexivity|]).
  subst d. reflexivity.
Qed.

(** The model of [strftime("%H:%M")] writes the specified format. *)
Lemma strftime_HM_hh_mm t :
  Datetime.strftime_HM t = hh_mm ((t / 3600000000) mod 24) ((t / 60000000) mod 60).
Proof.
  pose proof (hour_range t) as Hh. pose proof (minute_range t) as Hm.
  unfold Datetime.strftime_HM.
  rewrite (two_digits_chars (Datetime.hour t)), (two_digits_chars (Datetime.minute t))
    by lia.
  rewrite !pretty_N_char_digit
    by (first [apply Z.mod_pos_bound; lia
              |split; [apply Z.div_pos; lia|apply Z.div_lt_upper_bound; lia]]).
  reflexivity.
Qed.

Lemma reminder_text_stamped t template :
  reminder_text t template = stamped t template.
Proof. unfold reminder_text, stamped. rewrite strftime_HM_hh_mm. reflexivity. Qed.

(** ** The reminder *)

Lemma drawn_In w k : In (drawn w k) messages.
Proof.
  unfold drawn. apply nth_In.
  change (length messages) with 5%nat. apply Nat.mod_upper_bound. lia.
Qed.

(** [send_water_reminder] is [send_message] on the composed text, two
    questions to the world later (the draw, then the clock). *)
Lemma send_water_reminder_unfold w self st :
  send_water_reminder w self st =
    send_message w self
      (reminder_text (now_at w (S (tick st))) (drawn w (tick st)))
      (bump (bump st)).
Proof.
  unfold send_water_reminder, random_choice, datetime_now, messages.
  rewrite bind_assoc, bind_ask, bind_ret, bind_ask.
  unfold reminder_text, drawn, messages.
  erewrite nth_indep; [reflexivity|].
  apply Nat.mod_upper_bound. discriminate.
Qed.

(** C1: every reminder is one of the five templates, put after the
    local time of the moment written as HH:MM (the two decimal digits
    of the hour of the day, a colon, the two decimal digits of the
    minute of the hour) inside the fixed markup, and that text is what
    is handed to the send operation and posted; each of the five
    templates is the one selected for some draw of the random
    generator. *)
Theorem send_water_reminder_text
    (w : World) (self : nat) (b : WaterReminderBot) (st : state) :
  objs st !! self = Some b ->
  let template := drawn w (tick st) in
  let now := now_at w (S (tick st)) in
  let full_message := stamped now template in
  length messages = 5%nat
  /\ In template messages
  /\ reminder_text now template = full_message
  /\ send_water_reminder w self st = send_message w self full_message (bump (bump st))
  /\ filter is_Post (events (send_water_reminder w self st)) = [delivery b full_message]
  /\ forall i, (i < 5)%nat ->
       exists t, messages !! i = Some t
         /\ filter is_Post (events (send_water_reminder (with_draw i w) self st))
            = [delivery b (stamped now t)].
Proof.
  intros Hself template now full_message.
  assert (Hposts : forall w' msg,
            filter is_Post (events (send_message w' self msg (bump (bump st))))
            = [delivery b msg]).
  { intros w' msg.
    destruct (send_message_events w' self b msg (bump (bump st)) Hself)
      as (log & -> & [->|[line ->]]); reflexivity. }
  subst full_message now.
  split; [reflexivity|]. split; [apply drawn_In|].
  split; [apply reminder_text_stamped|].
  split; [rewrite send_water_reminder_unfold, reminder_text_stamped; reflexivity|].
  split.
  - rewrite send_water_reminder_unfold, reminder_text_stamped. apply Hposts.
  - intros i Hi. rewrite send_water_reminder_unfold, reminder_text_stamped.
    exists (nth i messages "").
    split.
    + do 5 (destruct i as [|i]; [reflexivity|]). lia.
    + rewrite Hposts. unfold drawn; simpl randbelow_at.
      rewrite Nat.mod_small by lia. reflexivity.
Qed.

Lemma send_water_reminder_text_witness :
  length messages = 5%nat
  /\ In (drawn calm (tick one_bot)) messages
  /\ reminder_text (now_at calm (S (tick one_bot))) (drawn calm (tick one_bot))
     = stamped (now_at calm (S (tick one_bot))) (drawn calm (tick one_bot))
  /\ send_water_reminder calm 0 one_bot =
       send_message calm 0
         (stamped (now_at calm (S (tick one_bot))) (drawn calm (tick one_bot)))
         (bump (bump one_bot))
  /\ filter is_Post (events (send_water_reminder calm 0 one_bot)) =
       [delivery (init "123:ABC" "42")
          (stamped (now_at calm (S (tick one_bot))) (drawn calm (tick one_bot)))]
  /\ forall i, (i < 5)%nat ->
       exists t, messages !! i = Some t
         /\ filter is_Post (events (send_water_reminder (with_draw i calm) 0 one_bot))
            = [delivery (init "123:ABC" "42")
                 (stamped (now_at calm (S (tick one_bot))) t)].
Proof.
  apply (send_water_reminder_text calm 0%nat (init "123:ABC" "42") one_bot).
  reflexivity.
Defined.

Example reminder_at_half_past_two :
  events (send_water_reminder calm 0 one_bot) =
    [ Post "https://api.telegram.org/bot123:ABC/sendMessage"
        [ ("chat_id", "42");
          ("text", "⏰ <b>14:30</b>" +:+ nl +:+ "💧 Time to drink water! Stay hydrated! 🚰");
          ("parse_mode", "HTML") ];
      Print ("✅ Message sent: ⏰ <b>14:30</b>" +:+ nl +:+
             "💧 Time to drink water! Stay hydrated! 🚰") ].
Proof. vm_compute. reflexivity. Qed.

(** ** Start-up *)

Section Startup.

Variable w : World.

Lemma every_minutes_do_events n f st :
  events (Schedule.every_minutes_do w n f st) = [Every n f].
Proof.
  unfold Schedule.every_minutes_do, Schedule.schedule_next_run.
  rewrite bind_emit; simpl. f_equal.
  destruct (Datetime.timedelta_minutes n) as [e|p]; [reflexivity|].
  rewrite bind_assoc. unfold datetime_now. rewrite bind_ask.
  destruct (Datetime.add _ p) as [e|t]; reflexivity.
Qed.

Lemma every_minutes_do_tick n f st :
  result (Schedule.every_minutes_do w n f st) = Ret tt ->
  tick (final (Schedule.every_minutes_do w n f st)) = S (tick st).
Proof.
  unfold Schedule.every_minutes_do, Schedule.schedule_next_run.
  rewrite bind_emit; simpl.
  destruct (Datetime.timedelta_minutes n) as [e|p]; [discriminate|].
  rewrite bind_assoc. unfold datetime_now. rewrite bind_ask.
  destruct (Datetime.add _ p) as [e|t]; [discriminate|reflexivity].
Qed.

(** Registration succeeds for every interval a [timedelta] can hold
    whose first due time is a [datetime]; an interval of an hour, a
    day or a year at any date of this era is such. *)
Lemma every_minutes_do_returns n f st :
  - 999999999 <= n / 1440 <= 999999999 ->
  Datetime.in_range (now_at w (tick st) + n * Datetime.us_per_minute) = true ->
  result (Schedule.every_minutes_do w n f st) = Ret tt.
Proof.
  intros Hdays Hrange.
  unfold Schedule.every_minutes_do, Schedule.schedule_next_run.
  rewrite bind_emit; simpl.
  unfold Datetime.timedelta_minutes.
  assert ((n / 1440 <? - 2 ^ 31) || (2 ^ 31 <=? n / 1440) = false) as ->.
  { apply orb_false_intro; [apply Z.ltb_ge|apply Z.leb_gt]; lia. }
  assert ((n / 1440 <? - 999999999) || (999999999 <? n / 1440) = false) as ->.
  { apply orb_false_intro; apply Z.ltb_ge; lia. }
  rewrite bind_assoc. unfold datetime_now. rewrite bind_ask.
  unfold Datetime.add. rewrite Hrange. reflexivity.
Qed.

Lemma poll_loop_events polls st :
  events (poll_loop w polls st) = []
  \/ exists l, events (poll_loop w polls st) = RunPending :: l.
Proof.
  destruct polls as [|polls]; [left; reflexivity|right].
  simpl. unfold Schedule.run_pending.
  rewrite bind_assoc, bind_emit. simpl. eauto.
Qed.

Lemma poll_loop_enters polls st :
  (0 < polls)%nat -> exists l, events (poll_loop w polls st) = RunPending :: l.
Proof.
  intros Hpos. destruct polls as [|polls]; [lia|].
  simpl. unfold Schedule.run_pending.
  rewrite bind_assoc, bind_emit. simpl. eauto.
Qed.

(** The events of [start_reminders] when the job can be registered:
    two lines, the registration, then [send_message] with the welcome
    text, then the loop if [send_message] came back. *)
Lemma start_reminders_events n polls self st :
  let f := send_water_reminder_of self in
  result (Schedule.every_minutes_do w n f st) = Ret tt ->
  let welcome :=
    send_message w self (welcome_message n)
      (final (Schedule.every_minutes_do w n f st)) in
  events (start_reminders w n polls self st) =
    Print "🚀 Water reminder bot started!"
    :: Print ("⏱️ Reminder interval: " +:+ Py.str_of_int n +:+ " minutes")
    :: Every n f
    :: events welcome ++
       match result welcome with
       | Ret _ => events (poll_loop w polls (final welcome))
       | _ => []
       end.
Proof.
  intros f Hreg welcome. unfold start_reminders, print.
  rewrite !bind_emit. simpl. do 2 f_equal.
  rewrite events_bind. fold f. rewrite every_minutes_do_events, Hreg. simpl.
  f_equal. rewrite events_bind. reflexivity.
Qed.

End Startup.

(** C4 (as the code has it): when the recurring job can be registered,
    [start_reminders] registers it first and then sends the welcome
    message, exactly one message, before the polling loop is entered;
    if that send comes back (answered, or failed with an [Exception]),
    the loop is entered right after its log line. *)
Theorem start_reminders_registers_then_welcomes
    (w : World) (n : Z) (polls : nat) (self : nat) (b : WaterReminderBot) (st : state) :
  objs st !! self = Some b ->
  result (Schedule.every_minutes_do w n (send_water_reminder_of self) st) = Ret tt ->
  let l := events (start_reminders w n polls self st) in
  index_of is_Every l = Some 2%nat
  /\ index_of is_Post l = Some 3%nat
  /\ l !! 3%nat = Some (delivery b (welcome_message n))
  /\ filter is_Post (before_loop l) = [delivery b (welcome_message n)]
  /\ ((forall e, post_at w (S (tick st)) = Failed e -> Py.is_Exception e = true) ->
      (0 < polls)%nat ->
      l !! 5%nat = Some RunPending).
Proof.
  intros Hself Hreg l; subst l.
  rewrite (start_reminders_events w n polls self st Hreg).
  set (st1 := final (Schedule.every_minutes_do w n (send_water_reminder_of self) st)).
  assert (Hself1 : objs st1 !! self = Some b).
  { unfold st1. rewrite keeps_every_minutes_do. exact Hself. }
  assert (Htick : tick st1 = S (tick st)) by (apply every_minutes_do_tick; exact Hreg).
  destruct (post_at w (tick st1)) as [resp|e] eqn:Hp.
  - rewrite (send_message_replied w self b _ st1 Hself1 resp Hp). simpl.
    repeat split.
    + destruct (poll_loop_events w polls (bump st1)) as [->|[tl ->]]; reflexivity.
    + intros _ Hpos.
      destruct (poll_loop_enters w polls (bump st1) Hpos) as [tl ->]. reflexivity.
  - destruct (Py.is_Exception e) eqn:He.
    + rewrite (send_message_caught w self b _ st1 Hself1 e Hp He). simpl.
      repeat split.
      * destruct (poll_loop_events w polls (bump st1)) as [->|[tl ->]]; reflexivity.
      * intros _ Hpos.
        destruct (poll_loop_enters w polls (bump st1) Hpos) as [tl ->]. reflexivity.
    + rewrite (send_message_passes w self b _ st1 Hself1 e Hp He). simpl.
      repeat split.
      intros Hexn _. rewrite Htick in Hp. rewrite (Hexn e Hp) in He. discriminate.
Qed.

Lemma start_reminders_registers_then_welcomes_witness :
  index_of is_Every sample_startup = Some 2%nat
  /\ index_of is_Post sample_startup = Some 3%nat
  /\ sample_startup !! 3%nat
     = Some (delivery (init "123:ABC" "42") (welcome_message 60))
  /\ filter is_Post (before_loop sample_startup)
     = [delivery (init "123:ABC" "42") (welcome_message 60)]
  /\ sample_startup !! 5%nat = Some RunPending.
Proof.
  unfold sample_startup.
  destruct (start_reminders_registers_then_welcomes
              calm 60 1%nat 0%nat (init "123:ABC" "42") one_bot)
    as (H1 & H2 & H3 & H4 & H5).
  - reflexivity.
  - reflexivity.
  - split; [exact H1|]. split; [exact H2|]. split; [exact H3|]. split; [exact H4|].
    apply H5; [|lia].
    intros e He. discriminate He.
Defined.

(** C4 as worded fails: in a run of [start_reminders] the welcome POST
    does not come before the registration of the recurring job. *)
Lemma welcome_not_before_registration :
  ~ exists i j url data n f,
      (i < j)%nat
      /\ sample_startup !! i = Some (Post url data)
      /\ sample_startup !! j = Some (Every n f).
Proof.
  intros (i & j & url & data & n & f & Hlt & Hi & Hj).
  pose (l := sample_startup). change sample_startup with l in Hi, Hj.
  vm_compute in l. subst l.
  assert (j = 2%nat) as ->.
  { do 7 (destruct j as [|j]; [first [discriminate Hj | reflexivity]|]).
    discriminate Hj. }
  do 2 (destruct i as [|i]; [discriminate Hi|]). lia.
Qed.

(** ** [main] *)

Lemma truthy_missing v : Py.truthy v = false <-> missing v.
Proof.
  unfold missing. destruct v as [s|]; simpl.
  - destruct (String.eqb_spec s ""); subst; simpl; split; auto.
    + discriminate.
    + intros [H|[= H]]; [discriminate H|contradiction].
  - split; auto.
Qed.

Lemma truthy_present s : s <> "" -> Py.truthy (Some s) = true.
Proof.
  intros Hs. simpl. destruct (String.eqb_spec s ""); [contradiction|reflexivity].
Qed.

Lemma truthy_unset_if_empty v : Py.truthy (unset_if_empty v) = Py.truthy v.
Proof. destruct v as [[|c s]|]; reflexivity. Qed.

Section MainFacts.

Variables (w : World) (g : globals) (polls : nat) (st : state).

Lemma main_returns_early :
  missing (BOT_TOKEN g) \/ missing (CHAT_ID g) ->
  main w g polls st = Run diagnostic (Ret tt) st.
Proof.
  intros H. unfold main.
  assert (negb (Py.truthy (BOT_TOKEN g)) || negb (Py.truthy (CHAT_ID g)) = true) as ->.
  { destruct H as [H|H]; apply truthy_missing in H; rewrite H; simpl;
      auto using orb_true_r. }
  reflexivity.
Qed.

(** With both settings present, [main] is the guarded call of
    [start_reminders] on a freshly built bot. *)
Lemma main_starts tok cid :
  BOT_TOKEN g = Some tok -> CHAT_ID g = Some cid -> tok <> "" -> cid <> "" ->
  main w g polls st =
    try_except
      (start_reminders w (REMINDER_INTERVAL g) polls (length (objs st)))
      (fun e =>
         if Py.is_KeyboardInterrupt e then
           Some (print (nl +:+ "🛑 Bot stopped by user"))
         else if Py.is_Exception e then
           Some (print ("❌ Error: " +:+ Py.exn_str e))
         else None)
      (alloc (init tok cid) st).
Proof.
  intros Ht Hc Htok Hcid. unfold main.
  rewrite Ht, Hc, !truthy_present by assumption. simpl negb. simpl orb. cbv iota.
  unfold new. unfold bind at 1. simpl.
  symmetry. apply run_eta.
Qed.

End MainFacts.

(** C3: with [BOT_TOKEN] or [CHAT_ID] missing, [main] prints the
    diagnostic and returns: no bot is built, no POST is made, the loop
    is not entered.  Otherwise it builds the bot from the two settings
    and runs [start_reminders] on it. *)
Theorem main_checks_settings (w : World) (g : globals) (polls : nat) (st : state) :
  (missing (BOT_TOKEN g) \/ missing (CHAT_ID g) ->
     main w g polls st = Run diagnostic (Ret tt) st
     /\ filter is_Post (events (main w g polls st)) = []
     /\ objs (final (main w g polls st)) = objs st)
  /\ (forall tok cid,
        BOT_TOKEN g = Some tok -> CHAT_ID g = Some cid -> tok <> "" -> cid <> "" ->
        let started :=
          start_reminders w (REMINDER_INTERVAL g) polls (length (objs st))
            (alloc (init tok cid) st) in
        objs (final (main w g polls st)) = objs st ++ [init tok cid]
        /\ exists tail, events (main w g polls st) = events started ++ tail).
Proof.
  split.
  - intros H. rewrite main_returns_early by exact H. auto.
  - intros tok cid Ht Hc Htok Hcid started.
    rewrite (main_starts w g polls st tok cid Ht Hc Htok Hcid).
    split.
    + rewrite keeps_try_except; [reflexivity|apply keeps_start_reminders|].
      intros e h.
      destruct (Py.is_KeyboardInterrupt e); [|destruct (Py.is_Exception e)];
        intros [= <-]; apply keeps_print.
    + unfold try_except. fold started.
      assert (Hnil : exists tail, events started = events started ++ tail)
        by (exists []; symmetry; apply app_nil_r).
      destruct (result started) as [a|e|]; try exact Hnil.
      destruct (Py.is_KeyboardInterrupt e); [eexists; reflexivity|].
      destruct (Py.is_Exception e); [eexists; reflexivity|exact Hnil].
Qed.

Lemma main_checks_settings_witness :
  (main calm no_token 1 initial = Run diagnostic (Ret tt) initial
   /\ filter is_Post (events (main calm no_token 1 initial)) = []
   /\ objs (final (main calm no_token 1 initial)) = objs initial)
  /\ (objs (final (main calm configured 1 initial)) = objs initial ++ [init "123:ABC" "42"]
      /\ exists tail,
           events (main calm configured 1 initial) =
           events (start_reminders calm 60 1 0 (alloc (init "123:ABC" "42") initial))
           ++ tail).
Proof.
  split.
  - apply (proj1 (main_checks_settings calm no_token 1%nat initial)).
    left. left. reflexivity.
  - apply (proj2 (main_checks_settings calm configured 1%nat initial)
             "123:ABC" "42"); (reflexivity || discriminate).
Defined.

(** C10: an empty [BOT_TOKEN] or [CHAT_ID] has the effect of an absent
    one: [main] prints the diagnostic and returns, which is also what it
    does once the empty values are taken out of the settings. *)
Theorem main_empty_setting_is_missing (w : World) (g : globals) (polls : nat) (st : state) :
  BOT_TOKEN g = Some "" \/ CHAT_ID g = Some "" ->
  main w g polls st = Run diagnostic (Ret tt) st
  /\ main w g polls st =
       main w {| BOT_TOKEN := unset_if_empty (BOT_TOKEN g);
                 CHAT_ID := unset_if_empty (CHAT_ID g);
                 REMINDER_INTERVAL := REMINDER_INTERVAL g |} polls st
  /\ (unset_if_empty (BOT_TOKEN g) = None \/ unset_if_empty (CHAT_ID g) = None).
Proof.
  intros H.
  assert (Hm : missing (BOT_TOKEN g) \/ missing (CHAT_ID g)).
  { destruct H; [left|right]; right; assumption. }
  split; [apply main_returns_early; exact Hm|].
  split.
  - unfold main. simpl. rewrite !truthy_unset_if_empty.
    destruct (negb (Py.truthy (BOT_TOKEN g)) || negb (Py.truthy (CHAT_ID g))) eqn:Hgate;
      [reflexivity|].
    apply orb_false_elim in Hgate as [H1 H2].
    apply negb_false_iff in H1, H2.
    destruct H as [H|H]; rewrite H in *; discriminate.
  - destruct H as [->| ->]; auto.
Qed.

Lemma main_empty_setting_is_missing_witness :
  main calm empty_chat 1 initial = Run diagnostic (Ret tt) initial
  /\ main calm empty_chat 1 initial =
       main calm {| BOT_TOKEN := Some "123:ABC"; CHAT_ID := None;
                    REMINDER_INTERVAL := 60 |} 1 initial
  /\ (unset_if_empty (BOT_TOKEN empty_chat) = None
      \/ unset_if_empty (CHAT_ID empty_chat) = None).
Proof.
  apply (main_empty_setting_is_missing calm empty_chat 1%nat initial).
  right. reflexivity.
Defined.

(** C7: when [start_reminders] is ended by [KeyboardInterrupt], or by
    any [Exception], [main] catches it, prints one line (the shutdown
    notice, or the error) and returns normally: nothing is raised again
    and nothing runs after that line. *)
Theorem main_catches_loop_exit
    (w : World) (g : globals) (polls : nat) (st : state) (tok cid : string) (e : Py.exn) :
  BOT_TOKEN g = Some tok -> CHAT_ID g = Some cid -> tok <> "" -> cid <> "" ->
  let started :=
    start_reminders w (REMINDER_INTERVAL g) polls (length (objs st))
      (alloc (init tok cid) st) in
  result started = Raise e ->
  Py.is_KeyboardInterrupt e || Py.is_Exception e = true ->
  main w g polls st =
    Run (events started ++ [Print (shutdown_line e)]) (Ret tt) (final started).
Proof.
  intros Ht Hc Htok Hcid started Hraise Hclass.
  rewrite (main_starts w g polls st tok cid Ht Hc Htok Hcid).
  unfold shutdown_line.
  destruct (Py.is_KeyboardInterrupt e) eqn:Hki.
  - rewrite (try_except_caught _ _ _ e
               (print (nl +:+ "🛑 Bot stopped by user")) Hraise);
      [reflexivity|].
    rewrite Hki. reflexivity.
  - simpl in Hclass.
    rewrite (try_except_caught _ _ _ e
               (print ("❌ Error: " +:+ Py.exn_str e)) Hraise);
      [reflexivity|].
    rewrite Hki, Hclass. reflexivity.
Qed.

Lemma main_catches_loop_exit_witness :
  main ctrl_c configured 3 initial =
    Run (events (start_reminders ctrl_c 60 3 0 (alloc (init "123:ABC" "42") initial))
         ++ [Print (nl +:+ "🛑 Bot stopped by user")])
        (Ret tt)
        (final (start_reminders ctrl_c 60 3 0 (alloc (init "123:ABC" "42") initial)))
  /\ main calm far_future 3 initial =
       Run (events (start_reminders calm (10 ^ 20) 3 0 (alloc (init "123:ABC" "42") initial))
            ++ [Print "❌ Error: Python int too large to convert to C int"])
           (Ret tt)
           (final (start_reminders calm (10 ^ 20) 3 0 (alloc (init "123:ABC" "42") initial))).
Proof.
  split.
  - apply (main_catches_loop_exit ctrl_c configured 3%nat initial "123:ABC" "42"
             (Py.Exn Py.KeyboardInterrupt ""));
      first [reflexivity | discriminate | vm_compute; reflexivity].
  - apply (main_catches_loop_exit calm far_future 3%nat initial "123:ABC" "42"
             (Py.Exn Py.OverflowError "Python int too large to convert to C int"));
      first [reflexivity | discriminate | vm_compute; reflexivity].
Defined.

Example ctrl_c_run :
  events (main ctrl_c configured 3 initial) =
    [ Print "🚀 Water reminder bot started!";
      Print "⏱️ Reminder interval: 60 minutes";
      Every 60 (send_water_reminder_of 0);
      delivery (init "123:ABC" "42") (welcome_message 60);
      Print ("✅ Message sent: " +:+ welcome_message 60);
      RunPending;
      Sleep 1;
      Print (nl +:+ "🛑 Bot stopped by user") ]
  /\ result (main ctrl_c configured 3 initial) = Ret tt.
Proof. split; vm_compute; reflexivity. Qed.

(** What [main] does not catch: a [BaseException] that is neither
    [KeyboardInterrupt] nor an [Exception] leaves [main]. *)
Remark main_lets_others_through
    (w : World) (g : globals) (polls : nat) (st : state) (tok cid : string) (e : Py.exn) :
  BOT_TOKEN g = Some tok -> CHAT_ID g = Some cid -> tok <> "" -> cid <> "" ->
  let started :=
    start_reminders w (REMINDER_INTERVAL g) polls (length (objs st))
      (alloc (init tok cid) st) in
  result started = Raise e ->
  Py.is_KeyboardInterrupt e || Py.is_Exception e = false ->
  main w g polls st = started.
Proof.
  intros Ht Hc Htok Hcid started Hraise Hclass.
  rewrite (main_starts w g polls st tok cid Ht Hc Htok Hcid).
  apply orb_false_elim in Hclass as [Hki Hex].
  apply try_except_passes. fold started. intros e' He'.
  rewrite Hraise in He'. injection He' as <-.
  rewrite Hki, Hex. reflexivity.
Qed.

(** ** The bot's fields *)

(** C8: the three fields are given their values by the constructor,
    building a bot leaves the existing ones as they are, and
    [send_message], [send_water_reminder] and [start_reminders] (for
    any number of polls, whatever the world does, however they end)
    leave every field of every bot object unchanged. *)
Theorem bot_configuration_is_never_mutated
    (w : World) (n : Z) (polls : nat) (self : nat) (message tok cid : string)
    (st : state) :
  init tok cid =
    {| bot_token := tok; chat_id := cid;
       base_url := "https://api.telegram.org/bot" +:+ tok |}
  /\ objs (final (new tok cid st)) = objs st ++ [init tok cid]
  /\ objs (final (send_message w self message st)) = objs st
  /\ objs (final (send_water_reminder w self st)) = objs st
  /\ objs (final (start_reminders w n polls self st)) = objs st.
Proof.
  split; [reflexivity|]. split; [reflexivity|].
  split; [apply keeps_send_message|].
  split; [apply keeps_send_water_reminder|apply keeps_start_reminders].
Qed.

(** ** Loading the settings *)

(** C6 as worded fails: an interval below 1 is loaded as it is. *)
Lemma interval_below_one_is_loaded :
  ~ (forall (environ : gmap string string) (g : globals),
       load_globals environ = inr g -> 1 <= REMINDER_INTERVAL g).
Proof.
  intros H.
  assert (Hload : load_globals (<["REMINDER_INTERVAL" := "0"]> sample_environ) =
                  inr {| BOT_TOKEN := Some "123:ABC"; CHAT_ID := Some "42";
                         REMINDER_INTERVAL := 0 |})
    by (vm_compute; reflexivity).
  apply H in Hload. simpl in Hload. lia.
Qed.

Lemma load_globals_interval (environ : gmap string string) g :
  load_globals environ = inr g ->
  load_interval environ = inr (REMINDER_INTERVAL g).
Proof.
  unfold load_globals. destruct (load_interval environ) as [e|n]; [discriminate|].
  intros [= <-]. reflexivity.
Qed.

(** [to_int] and [int_of_str] say the same. *)
Lemma to_int_value s n : Py.to_int s = inr n <-> Py.int_of_str s = Some n.
Proof.
  unfold Py.int_of_str. destruct (Py.to_int s) as [e|m]; split; congruence.
Qed.

Lemma to_int_raises s :
  Py.int_of_str s = None ->
  exists e, Py.to_int s = inl e /\ Py.exn_cls e = Py.ValueError.
Proof.
  unfold Py.int_of_str, Py.to_int.
  destruct (Py.too_long s) as [k|]; [eauto|].
  destruct (Py.int_literal s) as [n|]; [discriminate|eauto].
Qed.

(** C6 (as the code has it): an unset [REMINDER_INTERVAL] gives 60; a
    set one gives the integer it spells, unchecked; so the interval is
    at least 1 exactly when the variable is unset or spells an integer
    that is at least 1. *)
Theorem interval_is_default_or_as_given (environ : gmap string string) (g : globals) :
  load_globals environ = inr g ->
  (environ !! "REMINDER_INTERVAL" = None -> REMINDER_INTERVAL g = 60)
  /\ (forall s, environ !! "REMINDER_INTERVAL" = Some s ->
        Py.int_of_str s = Some (REMINDER_INTERVAL g))
  /\ (1 <= REMINDER_INTERVAL g <->
      environ !! "REMINDER_INTERVAL" = None
      \/ exists s n, environ !! "REMINDER_INTERVAL" = Some s
                     /\ Py.int_of_str s = Some n /\ 1 <= n).
Proof.
  intros Hload. apply load_globals_interval in Hload.
  unfold load_interval, environ_get in Hload.
  destruct (environ !! "REMINDER_INTERVAL") as [s|] eqn:Hs.
  - apply to_int_value in Hload.
    pose proof Hload as Hn. revert Hn Hload.
    generalize (REMINDER_INTERVAL g). intros n Hn _.
    split; [discriminate|]. split; [intros s' [= <-]; exact Hn|].
    split.
    + intros Hge. right. exists s, n. auto.
    + intros [H|(s' & n' & [= <-] & Hn' & Hge)]; [discriminate|].
      rewrite Hn in Hn'. injection Hn' as <-. exact Hge.
  - injection Hload as <-.
    split; [reflexivity|]. split; [discriminate|].
    split; [auto|lia].
Qed.

Lemma interval_is_default_or_as_given_witness :
  (sample_environ !! "REMINDER_INTERVAL" = None -> REMINDER_INTERVAL configured = 60)
  /\ (forall s, sample_environ !! "REMINDER_INTERVAL" = Some s ->
        Py.int_of_str s = Some (REMINDER_INTERVAL configured))
  /\ (1 <= REMINDER_INTERVAL configured <->
      sample_environ !! "REMINDER_INTERVAL" = None
      \/ exists s n, sample_environ !! "REMINDER_INTERVAL" = Some s
                     /\ Py.int_of_str s = Some n /\ 1 <= n).
Proof.
  apply (interval_is_default_or_as_given sample_environ configured).
  vm_compute. reflexivity.
Defined.

(** C9: a [REMINDER_INTERVAL] in ASCII text that [int] refuses (it
    is no integer literal, or one of more than 4300 digits) makes the
    module body raise [ValueError]: the script ends there, before
    [main] looks at the other two settings, having printed nothing and
    posted nothing. *)
Theorem bad_interval_raises_at_load
    (environ : gmap string string) (w : World) (polls : nat) (s : string) :
  environ !! "REMINDER_INTERVAL" = Some s ->
  Py.is_ascii s = true ->
  Py.int_of_str s = None ->
  exists e, Py.exn_cls e = Py.ValueError
            /\ load_globals environ = inl e
            /\ script environ w polls = Run [] (Raise e) initial.
Proof.
  intros Hs _ Hn.
  destruct (to_int_raises s Hn) as (e & He & Hcls).
  exists e. split; [exact Hcls|].
  assert (Hload : load_globals environ = inl e).
  { unfold load_globals, load_interval, environ_get. rewrite Hs, He. reflexivity. }
  split; [exact Hload|].
  unfold script. rewrite Hload. reflexivity.
Qed.

Lemma bad_interval_raises_at_load_witness :
  exists e, Py.exn_cls e = Py.ValueError
            /\ load_globals bad_interval_only = inl e
            /\ script bad_interval_only calm 3 = Run [] (Raise e) initial.
Proof.
  apply (bad_interval_raises_at_load bad_interval_only calm 3%nat "sixty").
  - vm_compute. reflexivity.
  - reflexivity.
  - vm_compute. reflexivity.
Defined.

(** The same for an interval of 4301 digits, with the error [int]
    gives for it. *)
Example overlong_interval_raises :
  script (<["REMINDER_INTERVAL" := ones 4301]> sample_environ) calm 3 =
    Run [] (Raise (Py.Exn Py.ValueError
                     ("Exceeds the limit (4300 digits) for integer string conversion: "
                      +:+ "value has 4301 digits; "
                      +:+ "use sys.set_int_max_str_digits() to increase the limit")))
        initial
  /\ Py.int_of_str (ones 4300) = Some ((10 ^ 4300 - 1) / 9).
Proof. split; vm_compute; reflexivity. Qed.

(** * Further properties of the program *)

(** ** The loop has no normal exit *)

Lemma poll_loop_never_returns w polls : forall st a,
  result (poll_loop w polls st) <> Ret a.
Proof.
  induction polls as [|polls IH]; intros st a; simpl; [discriminate|].
  rewrite result_bind.
  destruct (result (Schedule.run_pending w (call w) st)); try discriminate.
  rewrite result_bind.
  destruct (result (time_sleep w 1 _)); try discriminate.
  apply IH.
Qed.

Lemma start_reminders_ends w n polls self st :
  result (start_reminders w n polls self st) = Unfinished
  \/ exists e, result (start_reminders w n polls self st) = Raise e.
Proof.
  assert (H : forall a, result (start_reminders w n polls self st) <> Ret a).
  { intros a. unfold start_reminders, print.
    rewrite !bind_emit. simpl. rewrite result_bind.
    destruct (result (Schedule.every_minutes_do _ _ _ _)); try discriminate.
    rewrite result_bind.
    destruct (result (send_message _ _ _ _)); try discriminate.
    apply poll_loop_never_returns. }
  destruct (result (start_reminders w n polls self st)) as [a|e|]; eauto.
  destruct (H a eq_refl).
Qed.

(** X1: neither the polling loop nor [start_reminders] ever returns:
    however long they are observed and whatever the world does, they
    are still running or they have raised. *)
Theorem start_reminders_never_returns
    (w : World) (n : Z) (polls : nat) (self : nat) (st : state) :
  (result (poll_loop w polls st) = Unfinished
   \/ exists e, result (poll_loop w polls st) = Raise e)
  /\ (result (start_reminders w n polls self st) = Unfinished
      \/ exists e, result (start_reminders w n polls self st) = Raise e).
Proof.
  split; [|apply start_reminders_ends].
  pose proof (poll_loop_never_returns w polls st) as H.
  destruct (result (poll_loop w polls st)) as [a|e|]; eauto.
  destruct (H a eq_refl).
Qed.

(** ** How [main] ends *)

Lemma settings_cases (g : globals) :
  (missing (BOT_TOKEN g) \/ missing (CHAT_ID g))
  \/ exists tok cid,
       BOT_TOKEN g = Some tok /\ CHAT_ID g = Some cid /\ tok <> "" /\ cid <> "".
Proof.
  unfold missing.
  destruct (BOT_TOKEN g) as [tok|]; [|auto].
  destruct (CHAT_ID g) as [cid|]; [|auto].
  destruct (String.eqb_spec tok ""); [subst; auto|].
  destruct (String.eqb_spec cid ""); [subst; auto|].
  right. exists tok, cid. auto.
Qed.

(** The two [except] clauses, as one equation. *)
Lemma main_handles w g polls st tok cid e :
  BOT_TOKEN g = Some tok -> CHAT_ID g = Some cid -> tok <> "" -> cid <> "" ->
  let started :=
    start_reminders w (REMINDER_INTERVAL g) polls (length (objs st))
      (alloc (init tok cid) st) in
  result started = Raise e ->
  Py.is_KeyboardInterrupt e || Py.is_Exception e = true ->
  main w g polls st =
    Run (events started ++ [Print (shutdown_line e)]) (Ret tt) (final started).
Proof.
  intros Ht Hc Htok Hcid started Hraise Hclass.
  rewrite (main_starts w g polls st tok cid Ht Hc Htok Hcid).
  unfold try_except. fold started. rewrite Hraise. unfold shutdown_line.
  destruct (Py.is_KeyboardInterrupt e); [reflexivity|].
  simpl in Hclass. rewrite Hclass. reflexivity.
Qed.

(** X2: [main] lets neither a [KeyboardInterrupt] nor an [Exception]
    escape, for any settings and any world: what it raises, if
    anything, is of neither class. *)
Theorem main_raises_nothing_it_handles
    (w : World) (g : globals) (polls : nat) (st : state) (e : Py.exn) :
  result (main w g polls st) = Raise e ->
  Py.is_KeyboardInterrupt e = false /\ Py.is_Exception e = false.
Proof.
  destruct (settings_cases g) as [Hm|(tok & cid & Ht & Hc & Htok & Hcid)].
  - rewrite main_returns_early by exact Hm. discriminate.
  - rewrite (main_starts w g polls st tok cid Ht Hc Htok Hcid).
    unfold try_except.
    destruct (result (start_reminders _ _ _ _ _)) as [a|e'|] eqn:Hr;
      try (rewrite Hr; discriminate).
    destruct (Py.is_KeyboardInterrupt e') eqn:Hki; [discriminate|].
    destruct (Py.is_Exception e') eqn:Hex; [discriminate|].
    rewrite Hr. intros [= <-]. auto.
Qed.

Lemma main_raises_nothing_it_handles_witness :
  result (main sigterm configured 1 initial) = Raise (Py.Exn Py.SystemExit "")
  /\ Py.is_KeyboardInterrupt (Py.Exn Py.SystemExit "") = false
  /\ Py.is_Exception (Py.Exn Py.SystemExit "") = false.
Proof.
  assert (H : result (main sigterm configured 1 initial)
              = Raise (Py.Exn Py.SystemExit "")) by (vm_compute; reflexivity).
  split; [exact H|].
  exact (main_raises_nothing_it_handles sigterm configured 1%nat initial _ H).
Defined.

(** X3: when [main] returns, the last thing it did was to print the
    reason: the second line of the diagnostic, the shutdown notice, or
    the error. *)
Theorem main_return_is_announced
    (w : World) (g : globals) (polls : nat) (st : state) :
  result (main w g polls st) = Ret tt ->
  exists line,
    last (events (main w g polls st)) = Some (Print line)
    /\ (line = "💡 Make sure you've set up these variables in Railway/Heroku"
        \/ exists e, line = shutdown_line e).
Proof.
  destruct (settings_cases g) as [Hm|(tok & cid & Ht & Hc & Htok & Hcid)].
  - rewrite main_returns_early by exact Hm. intros _. eexists. split; [reflexivity|auto].
  - destruct (start_reminders_ends w (REMINDER_INTERVAL g) polls
                (length (objs st)) (alloc (init tok cid) st)) as [Hr|[e Hr]].
    + rewrite (main_starts w g polls st tok cid Ht Hc Htok Hcid).
      unfold try_except. rewrite Hr. rewrite Hr. discriminate.
    + destruct (Py.is_KeyboardInterrupt e || Py.is_Exception e) eqn:Hclass.
      * rewrite (main_handles w g polls st tok cid e Ht Hc Htok Hcid Hr Hclass).
        intros _. exists (shutdown_line e). split; [apply last_snoc|eauto].
      * rewrite (main_lets_others_through w g polls st tok cid e Ht Hc Htok Hcid Hr Hclass).
        rewrite Hr. discriminate.
Qed.

Lemma main_return_is_announced_witness :
  exists line,
    last (events (main ctrl_c configured 3 initial)) = Some (Print line)
    /\ (line = "💡 Make sure you've set up these variables in Railway/Heroku"
        \/ exists e, line = shutdown_line e).
Proof.
  apply (main_return_is_announced ctrl_c configured 3%nat initial).
  vm_compute. reflexivity.
Defined.

(** ** Which statements call a collaborator, and how the state moves *)

Lemma silent_ret {A} (a : A) : silent (ret a).
Proof. intros st. reflexivity. Qed.

Lemma silent_raise {A} e : silent (@raise A e).
Proof. intros st. reflexivity. Qed.

Lemma silent_ask {A} (f : nat -> A) : silent (ask f).
Proof. intros st. reflexivity. Qed.

Lemma silent_get_jobs : silent get_jobs.
Proof. intros st. reflexivity. Qed.

Lemma silent_put_jobs js : silent (put_jobs js).
Proof. intros st. reflexivity. Qed.

Lemma silent_bind {A B} (m : M A) (k : A -> M B) :
  silent m -> (forall a, silent (k a)) -> silent (bind m k).
Proof.
  intros Hm Hk st. rewrite events_bind, Hm.
  destruct (result (m st)); simpl; [apply Hk|reflexivity..].
Qed.

Lemma silent_schedule_next_run w j : silent (Schedule.schedule_next_run w j).
Proof.
  unfold Schedule.schedule_next_run.
  destruct (Datetime.timedelta_minutes (interval j)); [apply silent_raise|].
  apply silent_bind; [apply silent_ask|intros now].
  destruct (Datetime.add now z); [apply silent_raise|apply silent_ret].
Qed.

Lemma later_0 st : later 0 st = st.
Proof. destruct st; reflexivity. Qed.

Lemma later_bump k st : later k (bump st) = later (S k) st.
Proof. unfold later, bump; simpl. f_equal. lia. Qed.

(** Looking for due jobs asks the clock once per job, changes nothing
    else, and gives back jobs of the list (with positions in it). *)
Lemma runnable_run w js : forall i st,
  exists due,
    Schedule.runnable w i js st = Run [] (Ret due) (later (length js) st)
    /\ Forall (fun x => In (snd x) js) due
    /\ (length due <= length js)%nat.
Proof.
  induction js as [|j js IH]; intros i st; simpl.
  - exists []. rewrite later_0. auto.
  - unfold Schedule.should_run, datetime_now.
    rewrite bind_assoc, bind_ask, bind_ret.
    destruct (IH (S i) (bump st)) as (due & Hrun & Hin & Hlen).
    rewrite (bind_returns _ _ _ due) by (rewrite Hrun; reflexivity).
    rewrite Hrun; simpl. rewrite later_bump.
    destruct (next_run j <=? now_at w (tick st)).
    + exists ((i, j) :: due). split; [reflexivity|]. split.
      * constructor; [simpl; auto|].
        eapply Forall_impl; [exact Hin|]. simpl; auto.
      * simpl; lia.
    + exists due. split; [reflexivity|]. split.
      * eapply Forall_impl; [exact Hin|]. simpl; auto.
      * lia.
Qed.

(** ** One call of the reminder method, in full *)

Section CallShape.

Variable w : World.

(** With a live bot at [self], a call of its [send_water_reminder]
    takes three questions to the world (draw, clock, POST); it posts the
    reminder composed from the first two and prints one line, unless the
    POST is ended by a [BaseException] that is no [Exception]. *)
Lemma call_live self b st :
  objs st !! self = Some b ->
  let text := reminder_text (now_at w (S (tick st))) (drawn w (tick st)) in
  exists log res,
    call w (send_water_reminder_of self) st
    = Run (delivery b text :: log) res (later 3 st)
    /\ ((res = Ret tt /\ exists line, log = [Print line])
        \/ (log = [] /\ exists e, res = Raise e /\ Py.is_Exception e = false
                                  /\ post_at w (S (S (tick st))) = Failed e)).
Proof.
  intros Hself text. simpl call. rewrite send_water_reminder_unfold. fold text.
  assert (Hself2 : objs (bump (bump st)) !! self = Some b) by exact Hself.
  destruct (post_at w (tick (bump (bump st)))) as [resp|e] eqn:Hp.
  - rewrite (send_message_replied w self b text _ Hself2 resp Hp).
    do 2 eexists. split; [reflexivity|]. left. eauto.
  - destruct (Py.is_Exception e) eqn:He.
    + rewrite (send_message_caught w self b text _ Hself2 e Hp He).
      do 2 eexists. split; [reflexivity|]. left. eauto.
    + rewrite (send_message_passes w self b text _ Hself2 e Hp He).
      do 2 eexists. split; [reflexivity|]. right. eauto.
Qed.

(** Without an object at [self] the call raises before any POST. *)
Lemma call_dangling self st :
  objs st !! self = None ->
  exists e, call w (send_water_reminder_of self) st = Run [] (Raise e) (later 2 st).
Proof.
  intros Hself. simpl call. rewrite send_water_reminder_unfold.
  unfold send_message, getattr. unfold bind at 1. simpl.
  rewrite Hself. simpl. eauto.
Qed.

(** What every call has in common. *)
Lemma call_shape f st :
  exists k,
    final (call w f st) = later k st
    /\ (events (call w f st) = []
        \/ exists self b log,
             f = send_water_reminder_of self
             /\ objs st !! self = Some b
             /\ events (call w f st)
                = delivery b (reminder_text (now_at w (S (tick st))) (drawn w (tick st)))
                  :: log
             /\ (log = [] \/ exists line, log = [Print line])).
Proof.
  destruct f as [self].
  destruct (objs st !! self) as [b|] eqn:Hself.
  - destruct (call_live self b st Hself) as (log & res & Hrun & Hcases).
    exists 3%nat. rewrite Hrun. split; [reflexivity|].
    right. exists self, b, log. repeat split; auto.
    destruct Hcases as [[_ [line ->]]|[-> _]]; eauto.
  - destruct (call_dangling self st Hself) as (e & Hrun).
    exists 2%nat. rewrite Hrun. auto.
Qed.

Lemma call_posts f st : (posts (events (call w f st)) <= 1)%nat.
Proof.
  destruct (call_shape f st) as (k & _ & [->|(self & b & log & _ & _ & -> & Hlog)]).
  - unfold posts; simpl. lia.
  - destruct Hlog as [->|[line ->]]; unfold posts; simpl; lia.
Qed.

Lemma call_no_pace f st : filter is_pace (events (call w f st)) = [].
Proof.
  destruct (call_shape f st) as (k & _ & [->|(self & b & log & _ & _ & -> & Hlog)]).
  - reflexivity.
  - destruct Hlog as [->|[line ->]]; reflexivity.
Qed.

Lemma later_later k k' st : later k (later k' st) = later (k + k') st.
Proof. unfold later; simpl. f_equal. lia. Qed.

(** Running one due job: its events are those of the call; afterwards
    the job list is as before (when something raised) or has, at the
    job's position, the same job with new times. *)
Lemma run_job_shape i j st :
  exists k,
    events (Schedule.run_job w (call w) i j st)
    = events (call w (job_func j) (bump st))
    /\ (exists js', final (Schedule.run_job w (call w) i j st)
                    = set_jobs js' (later k st)
                    /\ (js' = jobs st
                        \/ exists j', job_func j' = job_func j
                                      /\ interval j' = interval j
                                      /\ js' = <[i := j']> (jobs st))).
Proof.
  unfold Schedule.run_job, datetime_now. rewrite bind_ask.
  destruct (call_shape (job_func j) (bump st)) as (k & Hfin & _).
  rewrite later_bump in Hfin.
  destruct (result (call w (job_func j) (bump st))) as [[]|e|] eqn:Hres.
  2: { exists (S k). rewrite (bind_raises _ _ _ e Hres). simpl.
       split; [reflexivity|]. exists (jobs st). rewrite Hfin. auto. }
  2: { exists (S k). unfold bind. rewrite Hres. simpl.
       split; [reflexivity|]. exists (jobs st). rewrite Hfin. auto. }
  rewrite (bind_returns _ _ _ tt Hres). simpl. rewrite Hfin.
  unfold Schedule.schedule_next_run. simpl interval.
  destruct (Datetime.timedelta_minutes (interval j)) as [e|p].
  { exists (S (S k)). simpl. rewrite app_nil_r. split; [reflexivity|].
    exists (jobs st). split; [|auto]. reflexivity. }
  rewrite bind_assoc. unfold datetime_now. rewrite bind_ask.
  destruct (Datetime.add _ p) as [e|t].
  { exists (S (S (S k))). simpl. rewrite app_nil_r. split; [reflexivity|].
    exists (jobs st). split; [|auto]. reflexivity. }
  rewrite bind_ret. simpl.
  exists (S (S (S k))). rewrite app_nil_r. split; [reflexivity|].
  eexists. split; [reflexivity|]. right. eexists. split; [|split; [|reflexivity]]; reflexivity.
Qed.

End CallShape.

(** ** One poll of the scheduler *)

Section PollShape.

Variable w : World.

Lemma insert_by_next_run_Forall (Q : nat * Job -> Prop) x l :
  Q x -> Forall Q l -> Forall Q (Schedule.insert_by_next_run x l).
Proof.
  intros Hx Hl. induction Hl as [|y l Hy Hl IH]; simpl; [auto|].
  destruct (next_run (snd y) <? next_run (snd x)); auto.
Qed.

Lemma sorted_Forall (Q : nat * Job -> Prop) l :
  Forall Q l -> Forall Q (Schedule.sorted l).
Proof.
  induction 1; simpl; auto using insert_by_next_run_Forall.
Qed.

Lemma insert_by_next_run_length x l :
  length (Schedule.insert_by_next_run x l) = S (length l).
Proof.
  induction l as [|y l IH]; simpl; [reflexivity|].
  destruct (next_run (snd y) <? next_run (snd x)); simpl; auto.
Qed.

Lemma sorted_length l : length (Schedule.sorted l) = length l.
Proof.
  induction l as [|x l IH]; simpl; [reflexivity|].
  rewrite insert_by_next_run_length. auto.
Qed.

(** A poll is the [RunPending] call followed by the run of some of the
    registered jobs, after one look at the clock per registered job. *)
Lemma run_pending_shape st :
  exists l,
    Forall (fun x => In (snd x) (jobs st)) l
    /\ (length l <= length (jobs st))%nat
    /\ Schedule.run_pending w (call w) st =
       Run (RunPending
            :: events (Schedule.run_all w (call w) l (later (length (jobs st)) st)))
           (result (Schedule.run_all w (call w) l (later (length (jobs st)) st)))
           (final (Schedule.run_all w (call w) l (later (length (jobs st)) st))).
Proof.
  destruct (runnable_run w (jobs st) 0%nat st) as (due & Hrun & Hin & Hlen).
  exists (Schedule.sorted due).
  split; [apply sorted_Forall; exact Hin|].
  split; [rewrite sorted_length; exact Hlen|].
  unfold Schedule.run_pending, get_jobs.
  rewrite bind_emit. unfold bind at 1. simpl.
  rewrite (bind_returns _ _ _ due) by (rewrite Hrun; reflexivity).
  rewrite Hrun. reflexivity.
Qed.

(** The jobs run in a poll emit the events of their calls, nothing
    else. *)
Lemma run_all_events (P : list event -> Prop) :
  P [] ->
  (forall f st l, P l -> P (events (call w f st) ++ l)) ->
  forall l st, P (events (Schedule.run_all w (call w) l st)).
Proof.
  intros Hnil Hcall l. induction l as [|[i j] l IH]; intros st; simpl; [exact Hnil|].
  rewrite events_bind.
  destruct (run_job_shape w i j st) as (k & -> & _).
  apply Hcall. destruct (result _); auto.
Qed.

Lemma run_all_posts l st :
  (posts (events (Schedule.run_all w (call w) l st)) <= length l)%nat.
Proof.
  revert st. induction l as [|[i j] l IH]; intros st; simpl.
  - unfold posts; simpl; lia.
  - rewrite events_bind.
    destruct (run_job_shape w i j st) as (k & -> & _).
    unfold posts in *. rewrite filter_app, length_app.
    pose proof (call_posts w (job_func j) (bump st)) as Hc. unfold posts in Hc.
    destruct (result _);
      [match goal with
       | |- context [Schedule.run_all w (call w) l ?s] => specialize (IH s)
       end|..];
      simpl in *; lia.
Qed.

Lemma run_all_no_pace l st :
  filter is_pace (events (Schedule.run_all w (call w) l st)) = [].
Proof.
  apply (run_all_events (fun l => filter is_pace l = [])); [reflexivity|].
  intros f st' l' Hl'. rewrite filter_app, call_no_pace, Hl'. reflexivity.
Qed.

(** Running jobs keeps the length of the job list, and any property of
    jobs that only depends on their callable and interval. *)
Lemma run_all_jobs (R : Job -> Prop) :
  (forall j j', job_func j' = job_func j -> interval j' = interval j -> R j -> R j') ->
  forall l st,
    Forall (fun x => R (snd x)) l ->
    Forall R (jobs st) ->
    Forall R (jobs (final (Schedule.run_all w (call w) l st)))
    /\ length (jobs (final (Schedule.run_all w (call w) l st))) = length (jobs st).
Proof.
  intros HR l. induction l as [|[i j] l IH]; intros st Hl Hst; simpl; [auto|].
  inversion Hl as [|x l' Hj Hl']; subst. simpl in Hj.
  rewrite final_bind.
  destruct (run_job_shape w i j st) as (k & _ & js' & Hfin & Hjs').
  assert (Hgood : Forall R js' /\ length js' = length (jobs st)).
  { destruct Hjs' as [->|(j' & Hf & Hi & ->)]; [auto|].
    split; [|apply length_insert].
    apply Forall_insert; [exact Hst|]. eapply HR; eauto. }
  destruct Hgood as [Hgood Hlen].
  destruct (result _).
  - destruct (IH (final (Schedule.run_job w (call w) i j st)) Hl') as [H1 H2].
    + rewrite Hfin. exact Hgood.
    + split; [exact H1|]. rewrite H2, Hfin. exact Hlen.
  - rewrite Hfin. auto.
  - rewrite Hfin. auto.
Qed.

Lemma run_pending_jobs (R : Job -> Prop) st :
  (forall j j', job_func j' = job_func j -> interval j' = interval j -> R j -> R j') ->
  Forall R (jobs st) ->
  Forall R (jobs (final (Schedule.run_pending w (call w) st)))
  /\ length (jobs (final (Schedule.run_pending w (call w) st))) = length (jobs st).
Proof.
  intros HR Hst.
  destruct (run_pending_shape st) as (l & Hin & _ & ->). simpl.
  apply (run_all_jobs R HR l (later (length (jobs st)) st)); [|exact Hst].
  eapply Forall_impl; [exact Hin|]. simpl. intros x Hx.
  rewrite Forall_forall in Hst. apply Hst, list_elem_of_In, Hx.
Qed.

Lemma time_sleep_run s st :
  time_sleep w s st =
    Run [Sleep s]
        (match sleep_at w (tick st) with None => Ret tt | Some e => Raise e end)
        (bump st).
Proof.
  unfold time_sleep. rewrite bind_emit, bind_ask.
  destruct (sleep_at w (tick st)); reflexivity.
Qed.

End PollShape.

(** ** Only the loop can be left unfinished *)

Lemma finishes_ret {A} (a : A) : finishes (ret a).
Proof. intros st; discriminate. Qed.

Lemma finishes_raise {A} e : finishes (@raise A e).
Proof. intros st; discriminate. Qed.

Lemma finishes_emit e : finishes (emit e).
Proof. intros st; discriminate. Qed.

Lemma finishes_ask {A} (f : nat -> A) : finishes (ask f).
Proof. intros st; discriminate. Qed.

Lemma finishes_get_jobs : finishes get_jobs.
Proof. intros st; discriminate. Qed.

Lemma finishes_put_jobs js : finishes (put_jobs js).
Proof. intros st; discriminate. Qed.

Lemma finishes_getattr {A} self (field : WaterReminderBot -> A) :
  finishes (getattr self field).
Proof. intros st. unfold getattr. destruct (objs st !! self); discriminate. Qed.

Lemma finishes_bind {A B} (m : M A) (k : A -> M B) :
  finishes m -> (forall a, finishes (k a)) -> finishes (bind m k).
Proof.
  intros Hm Hk st. rewrite result_bind.
  destruct (result (m st)) eqn:Hr; [apply Hk|discriminate|].
  destruct (Hm st Hr).
Qed.

Lemma finishes_try_except {A} (body : M A) handler :
  finishes body ->
  (forall e h, handler e = Some h -> finishes h) ->
  finishes (try_except body handler).
Proof.
  intros Hb Hh st. unfold try_except.
  destruct (result (body st)) as [a|e|] eqn:Hr; try (rewrite Hr; discriminate).
  - destruct (handler e) as [h|] eqn:He; [|rewrite Hr; discriminate].
    simpl. apply (Hh e h He).
  - destruct (Hb st Hr).
Qed.

Create HintDb finish discriminated.

#[local] Hint Resolve finishes_ret finishes_raise finishes_emit finishes_ask
  finishes_get_jobs finishes_put_jobs finishes_getattr : finish.

(** Goals [finishes m] for straight-line code. *)
Ltac finish :=
  repeat first
    [ progress (eauto with finish)
    | apply finishes_bind; [|intros ?]
    | match goal with
      | |- finishes (match ?x with _ => _ end) => destruct x
      | |- finishes (if ?x then _ else _) => destruct x
      end ].

Section Finishes.

Variable w : World.

Lemma finishes_send_message self message : finishes (send_message w self message).
Proof.
  unfold send_message. finish.
  apply finishes_try_except; [unfold requests_post, print; finish|].
  intros e h. destruct (Py.is_Exception e); intros [= <-]. apply finishes_emit.
Qed.

Lemma finishes_call f : finishes (call w f).
Proof.
  destruct f as [self]. intros st. unfold call.
  rewrite send_water_reminder_unfold. apply finishes_send_message.
Qed.

Lemma finishes_schedule_next_run j : finishes (Schedule.schedule_next_run w j).
Proof. unfold Schedule.schedule_next_run, datetime_now. finish. Qed.

Lemma finishes_every_minutes_do n f : finishes (Schedule.every_minutes_do w n f).
Proof.
  unfold Schedule.every_minutes_do. finish. apply finishes_schedule_next_run.
Qed.

Lemma finishes_run_job i j : finishes (Schedule.run_job w (call w) i j).
Proof.
  unfold Schedule.run_job, datetime_now.
  finish; auto using finishes_call, finishes_schedule_next_run.
Qed.

Lemma finishes_run_all l : finishes (Schedule.run_all w (call w) l).
Proof.
  induction l as [|[i j] l IH]; simpl; [finish|].
  apply finishes_bind; [apply finishes_run_job|auto].
Qed.

Lemma finishes_run_pending : finishes (Schedule.run_pending w (call w)).
Proof.
  intros st. destruct (run_pending_shape w st) as (l & _ & _ & ->). simpl.
  apply finishes_run_all.
Qed.

End Finishes.

(** ** The pace of the loop *)

Lemma filter_pace_RunPending l :
  filter is_pace (RunPending :: l) = RunPending :: filter is_pace l.
Proof. reflexivity. Qed.

Lemma run_pending_pace w st :
  filter is_pace (events (Schedule.run_pending w (call w) st)) = [RunPending].
Proof.
  destruct (run_pending_shape w st) as (l & _ & _ & ->). cbn [events].
  rewrite filter_pace_RunPending, run_all_no_pace. reflexivity.
Qed.

(** X4: the loop alternates one check of the schedule and one sleep of
    one second, beginning with the check; whatever happens inside a
    check adds no other check and no other sleep.  A loop still running
    after [polls] rounds has done exactly [polls] of each. *)
Theorem poll_loop_pace (w : World) (polls : nat) (st : state) :
  (exists k, (k <= polls)%nat
     /\ (filter is_pace (events (poll_loop w polls st)) = rounds k
         \/ filter is_pace (events (poll_loop w polls st)) = rounds k ++ [RunPending]))
  /\ (result (poll_loop w polls st) = Unfinished ->
      filter is_pace (events (poll_loop w polls st)) = rounds polls).
Proof.
  revert st. induction polls as [|polls IH]; intros st.
  - split; [exists 0%nat; auto|reflexivity].
  - simpl poll_loop.
    rewrite events_bind, result_bind, filter_app, run_pending_pace.
    destruct (result (Schedule.run_pending w (call w) st)) as [[]|e|] eqn:Hrp.
    + generalize (final (Schedule.run_pending w (call w) st)). intros st1.
      rewrite events_bind, result_bind, filter_app, time_sleep_run. simpl.
      destruct (sleep_at w _) as [e|].
      * split; [exists 1%nat; split; [lia|left; reflexivity]|discriminate].
      * destruct (IH (bump st1)) as [(k & Hk & Hev) Hun].
        split.
        -- exists (S k). split; [lia|].
           destruct Hev as [-> | ->]; [left|right]; reflexivity.
        -- intros H. rewrite (Hun H). reflexivity.
    + split; [exists 0%nat; split; [lia|right; reflexivity]|discriminate].
    + destruct (finishes_run_pending w st Hrp).
Qed.

(** ** Start-up, without assuming that the registration succeeds *)

Section StartShape.

Variable w : World.

Lemma send_message_dangling self message st :
  objs st !! self = None ->
  send_message w self message st =
    Run [] (Raise (Py.Exn Py.AttributeError "no such object")) st.
Proof.
  intros Hself. unfold send_message.
  rewrite (bind_raises _ _ _ (Py.Exn Py.AttributeError "no such object"));
    unfold getattr; rewrite Hself; reflexivity.
Qed.

Lemma send_message_shape self message st :
  exists k,
    final (send_message w self message st) = later k st
    /\ (events (send_message w self message st) = []
        \/ exists b log,
             objs st !! self = Some b
             /\ events (send_message w self message st) = delivery b message :: log
             /\ (log = [] \/ exists line, log = [Print line])).
Proof.
  destruct (objs st !! self) as [b|] eqn:Hself.
  - exists 1%nat.
    destruct (post_at w (tick st)) as [resp|e] eqn:Hp.
    + rewrite (send_message_replied w self b message st Hself resp Hp).
      split; [reflexivity|]. right. exists b. eauto 6.
    + destruct (Py.is_Exception e) eqn:He.
      * rewrite (send_message_caught w self b message st Hself e Hp He).
        split; [reflexivity|]. right. exists b. eauto 6.
      * rewrite (send_message_passes w self b message st Hself e Hp He).
        split; [reflexivity|]. right. exists b. eauto 6.
  - exists 0%nat. rewrite (send_message_dangling self message st Hself).
    rewrite later_0. auto.
Qed.

Lemma send_message_posts self message st :
  (posts (events (send_message w self message st)) <= 1)%nat.
Proof.
  destruct (send_message_shape self message st)
    as (k & _ & [->|(b & log & _ & -> & [->|[line ->]])]);
    unfold posts; simpl; lia.
Qed.

(** Registration appends one job with the given callable and interval,
    or (when it raises) leaves the job list as it is. *)
Lemma every_minutes_do_shape n f st :
  exists k js',
    final (Schedule.every_minutes_do w n f st) = set_jobs js' (later k st)
    /\ (js' = jobs st
        \/ exists j, js' = jobs st ++ [j] /\ job_func j = f /\ interval j = n).
Proof.
  unfold Schedule.every_minutes_do, Schedule.schedule_next_run.
  rewrite bind_emit; simpl.
  destruct (Datetime.timedelta_minutes n) as [e|p].
  { exists 0%nat, (jobs st). simpl. rewrite later_0. split; [destruct st|]; auto. }
  rewrite bind_assoc. unfold datetime_now. rewrite bind_ask.
  destruct (Datetime.add _ p) as [e|t].
  { exists 1%nat, (jobs st). simpl. auto. }
  rewrite bind_ret. simpl.
  exists 1%nat. eexists. split; [reflexivity|]. right. eexists. eauto.
Qed.

Lemma start_reminders_events_all n polls self st :
  let f := send_water_reminder_of self in
  let reg := Schedule.every_minutes_do w n f st in
  let welcome := send_message w self (welcome_message n) (final reg) in
  events (start_reminders w n polls self st) =
    Print "🚀 Water reminder bot started!"
    :: Print ("⏱️ Reminder interval: " +:+ Py.str_of_int n +:+ " minutes")
    :: Every n f
    :: match result reg with
       | Ret _ =>
           events welcome ++
           match result welcome with
           | Ret _ => events (poll_loop w polls (final welcome))
           | _ => []
           end
       | _ => []
       end.
Proof.
  intros f reg welcome. unfold start_reminders, print.
  rewrite !bind_emit. cbn [events]. do 2 f_equal.
  rewrite events_bind, every_minutes_do_events.
  cbn [app]. f_equal. fold f. fold reg.
  destruct (result reg); [|reflexivity..].
  rewrite events_bind. reflexivity.
Qed.

(** ** At most one delivery per poll and per registered job *)

Lemma posts_app l1 l2 : posts (l1 ++ l2) = (posts l1 + posts l2)%nat.
Proof. unfold posts. rewrite filter_app, length_app. reflexivity. Qed.

Lemma run_pending_posts st :
  (posts (events (Schedule.run_pending w (call w) st)) <= length (jobs st))%nat.
Proof.
  destruct (run_pending_shape w st) as (l & _ & Hlen & ->). cbn [events].
  change (RunPending :: ?x) with ([RunPending] ++ x).
  pose proof (run_all_posts w l (later (length (jobs st)) st)) as H.
  rewrite (posts_app [RunPending]). unfold posts at 1. simpl. lia.
Qed.

Lemma poll_loop_posts polls : forall st,
  (posts (events (poll_loop w polls st)) <= polls * length (jobs st))%nat.
Proof.
  induction polls as [|polls IH]; intros st.
  - unfold posts; simpl. lia.
  - simpl poll_loop. rewrite events_bind, posts_app.
    pose proof (run_pending_posts st) as Hrp.
    destruct (run_pending_jobs w (fun _ => True) st) as [_ Hlen];
      [auto|apply Forall_forall; auto|].
    destruct (result (Schedule.run_pending w (call w) st));
      [|change (posts []) with 0%nat; lia..].
    revert Hlen. generalize (final (Schedule.run_pending w (call w) st)). intros st1 Hlen.
    rewrite events_bind, posts_app, time_sleep_run. cbn [events result final].
    change (posts [Sleep 1]) with 0%nat.
    destruct (sleep_at w (tick st1)); [change (posts []) with 0%nat; lia|].
    specialize (IH (bump st1)). change (jobs (bump st1)) with (jobs st1) in IH.
    lia.
Qed.

End StartShape.

(** X5: started with an empty schedule, [start_reminders] makes at
    most one POST per round of the loop on top of the welcome: over
    [polls] rounds, never more than [1 + polls], whatever the clock,
    the replies and the interval are. *)
Theorem start_reminders_post_budget
    (w : World) (n : Z) (polls : nat) (self : nat) (st : state) :
  jobs st = [] ->
  (posts (events (start_reminders w n polls self st)) <= 1 + polls)%nat.
Proof.
  intros Hjobs. rewrite start_reminders_events_all.
  set (f := send_water_reminder_of self).
  set (reg := Schedule.every_minutes_do w n f st).
  change (?a :: ?b :: ?c :: ?l) with ([a; b; c] ++ l).
  rewrite posts_app. change (posts [_; _; _]) with 0%nat. cbn [plus].
  pose proof (send_message_posts w self (welcome_message n) (final reg)) as Hw.
  destruct (send_message_shape w self (welcome_message n) (final reg)) as (k & Hfin & _).
  destruct (every_minutes_do_shape w n f st) as (k' & js' & Hreg & Hjs').
  fold reg in Hreg.
  assert (Hone : (length js' <= 1)%nat).
  { destruct Hjs' as [->|(j & -> & _)]; rewrite Hjobs; simpl; lia. }
  destruct (result reg); [|change (posts []) with 0%nat; lia..].
  rewrite posts_app.
  destruct (result (send_message w self _ _)); [|change (posts []) with 0%nat; lia..].
  rewrite Hfin, Hreg.
  pose proof (poll_loop_posts w polls (later k (set_jobs js' (later k' st)))) as Hl.
  change (jobs (later k (set_jobs js' (later k' st)))) with js' in Hl.
  rewrite Hreg in Hw.
  assert (polls * length js' <= polls * 1)%nat by (apply Nat.mul_le_mono_l; exact Hone).
  lia.
Qed.

Lemma start_reminders_post_budget_witness :
  (posts (events (start_reminders calm 0 3 0 one_bot)) <= 1 + 3)%nat.
Proof.
  apply (start_reminders_post_budget calm 0 3%nat 0%nat one_bot).
  reflexivity.
Defined.

(** ** Everything the bot does, it does as itself *)

Section BotEvents.

Variable w : World.
Variables (self : nat) (b : WaterReminderBot) (n : Z).

Let ok := bot_event b self n.

Lemma delivery_ok msg log :
  bot_text n msg ->
  (log = [] \/ exists line, log = [Print line]) ->
  Forall ok (delivery b msg :: log).
Proof.
  intros Hmsg Hlog. constructor.
  - exists msg. auto.
  - destruct Hlog as [->|[line ->]]; repeat constructor.
Qed.

Lemma call_bot_events st :
  objs st !! self = Some b ->
  Forall ok (events (call w (send_water_reminder_of self) st)).
Proof.
  intros Hself.
  destruct (call_live w self b st Hself) as (log & res & -> & Hcases).
  apply delivery_ok.
  - right. do 2 eexists. split; [apply drawn_In|reflexivity].
  - destruct Hcases as [[_ [line ->]]|[-> _]]; eauto.
Qed.

Lemma run_all_bot_events l : forall st,
  objs st !! self = Some b ->
  Forall (fun x => job_func (snd x) = send_water_reminder_of self) l ->
  Forall ok (events (Schedule.run_all w (call w) l st)).
Proof.
  induction l as [|[i j] l IH]; intros st Hself Hl; simpl; [constructor|].
  inversion Hl as [|x l' Hj Hl']; subst. simpl in Hj.
  rewrite events_bind. apply Forall_app. split.
  - destruct (run_job_shape w i j st) as (k & -> & _). rewrite Hj.
    apply call_bot_events. exact Hself.
  - destruct (result _); [|constructor..].
    apply IH; [|exact Hl']. rewrite keeps_run_job. exact Hself.
Qed.

Lemma run_pending_bot_events st :
  objs st !! self = Some b ->
  jobs_of self (jobs st) ->
  Forall ok (events (Schedule.run_pending w (call w) st)).
Proof.
  intros Hself Hjobs.
  destruct (run_pending_shape w st) as (l & Hin & _ & ->). cbn [events].
  constructor; [exact I|].
  apply run_all_bot_events; [exact Hself|].
  eapply Forall_impl; [exact Hin|]. simpl. intros x Hx.
  unfold jobs_of in Hjobs. rewrite Forall_forall in Hjobs.
  apply Hjobs, list_elem_of_In, Hx.
Qed.

Lemma poll_loop_bot_events polls : forall st,
  objs st !! self = Some b ->
  jobs_of self (jobs st) ->
  Forall ok (events (poll_loop w polls st)).
Proof.
  induction polls as [|polls IH]; intros st Hself Hjobs; [constructor|].
  simpl poll_loop. rewrite events_bind. apply Forall_app. split.
  - apply run_pending_bot_events; assumption.
  - destruct (run_pending_jobs w (fun j => job_func j = send_water_reminder_of self) st)
      as [Hjobs1 _]; [congruence|exact Hjobs|].
    pose proof (keeps_run_pending w st) as Hobjs.
    destruct (result (Schedule.run_pending w (call w) st)); [|constructor..].
    revert Hjobs1 Hobjs.
    generalize (final (Schedule.run_pending w (call w) st)). intros st1 Hjobs1 Hobjs.
    rewrite events_bind, time_sleep_run. cbn [events result final].
    constructor; [reflexivity|].
    destruct (sleep_at w (tick st1)); [constructor|].
    apply IH; [|exact Hjobs1]. simpl. rewrite Hobjs. exact Hself.
Qed.

Lemma start_reminders_bot_events polls st :
  objs st !! self = Some b ->
  jobs_of self (jobs st) ->
  Forall ok (events (start_reminders w n polls self st)).
Proof.
  intros Hself Hjobs. rewrite start_reminders_events_all.
  set (f := send_water_reminder_of self).
  set (reg := Schedule.every_minutes_do w n f st).
  do 2 (constructor; [exact I|]). constructor; [split; reflexivity|].
  destruct (every_minutes_do_shape w n f st) as (k' & js' & Hreg & Hjs').
  fold reg in Hreg.
  assert (Hjobs' : jobs_of self js').
  { destruct Hjs' as [->|(j & -> & Hf & _)]; [exact Hjobs|].
    apply Forall_app. split; [exact Hjobs|]. repeat constructor. exact Hf. }
  destruct (result reg); [|constructor..].
  rewrite Hreg.
  assert (Hself1 : objs (set_jobs js' (later k' st)) !! self = Some b) by exact Hself.
  destruct (send_message_shape w self (welcome_message n) (set_jobs js' (later k' st)))
    as (k & Hfin & Hev).
  apply Forall_app. split.
  - destruct Hev as [->|(b' & log & Hb' & -> & Hlog)]; [constructor|].
    rewrite Hself1 in Hb'. injection Hb' as <-.
    apply delivery_ok; [left; reflexivity|exact Hlog].
  - destruct (result (send_message w self _ _)); [|constructor..].
    rewrite Hfin. apply poll_loop_bot_events; assumption.
Qed.

End BotEvents.

(** X6: in a run of [main] from an empty schedule every event is the
    bot's own: every POST is a delivery to the URL and chat of the bot
    built from the two settings, with [parse_mode] HTML, carrying the
    welcome text or a time stamp followed by one of the five
    templates; the only job registered is the bot's reminder, with the
    configured interval; every sleep lasts one second. *)
Theorem main_acts_only_as_the_bot
    (w : World) (g : globals) (polls : nat) (st : state) :
  jobs st = [] ->
  Forall (bot_event (init (default "" (BOT_TOKEN g)) (default "" (CHAT_ID g)))
                    (length (objs st)) (REMINDER_INTERVAL g))
         (events (main w g polls st)).
Proof.
  intros Hjobs.
  destruct (settings_cases g) as [Hm|(tok & cid & Ht & Hc & Htok & Hcid)].
  - rewrite main_returns_early by exact Hm. repeat constructor.
  - rewrite (main_starts w g polls st tok cid Ht Hc Htok Hcid).
    rewrite Ht, Hc. simpl default.
    assert (Hev : Forall (bot_event (init tok cid) (length (objs st)) (REMINDER_INTERVAL g))
                    (events (start_reminders w (REMINDER_INTERVAL g) polls
                               (length (objs st)) (alloc (init tok cid) st)))).
    { apply start_reminders_bot_events.
      - simpl. apply list_lookup_middle. reflexivity.
      - simpl. rewrite Hjobs. constructor. }
    unfold try_except.
    destruct (result (start_reminders _ _ _ _ _)) as [a|e|]; try exact Hev.
    destruct (Py.is_KeyboardInterrupt e);
      [cbn [events]; apply Forall_app; split; [exact Hev|repeat constructor]|].
    destruct (Py.is_Exception e);
      [cbn [events]; apply Forall_app; split; [exact Hev|repeat constructor]|exact Hev].
Qed.

Lemma main_acts_only_as_the_bot_witness :
  Forall (bot_event (init "123:ABC" "42") 0 0)
         (events (main calm {| BOT_TOKEN := Some "123:ABC"; CHAT_ID := Some "42";
                               REMINDER_INTERVAL := 0 |} 3 initial)).
Proof.
  apply (main_acts_only_as_the_bot calm
           {| BOT_TOKEN := Some "123:ABC"; CHAT_ID := Some "42";
              REMINDER_INTERVAL := 0 |} 3%nat initial).
  reflexivity.
Defined.

(** ** Nothing is sent before it is due *)

Section Quiet.

Variable w : World.

Lemma runnable_none js : forall i st,
  (forall j, In j js -> forall k, (tick st <= k)%nat -> now_at w k < next_run j) ->
  Schedule.runnable w i js st = Run [] (Ret []) (later (length js) st).
Proof.
  induction js as [|j js IH]; intros i st Hearly; simpl.
  - rewrite later_0. reflexivity.
  - unfold Schedule.should_run, datetime_now.
    rewrite bind_assoc, bind_ask, bind_ret.
    assert (Hrest : Schedule.runnable w (S i) js (bump st)
                    = Run [] (Ret []) (later (length js) (bump st))).
    { apply IH. intros j' Hj' k Hk. apply Hearly; [right; exact Hj'|simpl in Hk; lia]. }
    rewrite (bind_returns _ _ _ []) by (rewrite Hrest; reflexivity).
    rewrite Hrest. cbn [events result final ret app]. rewrite later_bump.
    assert ((next_run j <=? now_at w (tick st)) = false) as ->; [|reflexivity].
    apply Z.leb_gt. apply Hearly; [left; reflexivity|lia].
Qed.

Lemma bind_get_jobs {B} (k : list Job -> M B) st :
  bind get_jobs k st = k (jobs st) st.
Proof. unfold bind, get_jobs; simpl. symmetry; apply run_eta. Qed.

Lemma run_pending_quiet st :
  (forall j, In j (jobs st) -> forall k, (tick st <= k)%nat -> now_at w k < next_run j) ->
  Schedule.run_pending w (call w) st
  = Run [RunPending] (Ret tt) (later (length (jobs st)) st).
Proof.
  intros Hearly. unfold Schedule.run_pending.
  rewrite bind_emit, bind_get_jobs.
  pose proof (runnable_none (jobs st) 0%nat st Hearly) as Hnone.
  rewrite (bind_returns _ _ _ []) by (rewrite Hnone; reflexivity).
  rewrite Hnone. reflexivity.
Qed.

Lemma rounds_no_post k : filter is_Post (rounds k) = [].
Proof. induction k as [|k IH]; [reflexivity|exact IH]. Qed.

End Quiet.

Lemma poll_loop_quiet_core (w : World) (polls : nat) (st : state) :
  (forall j, In j (jobs st) -> forall k, (tick st <= k)%nat -> now_at w k < next_run j) ->
  exists k, (k <= polls)%nat
    /\ events (poll_loop w polls st) = rounds k
    /\ jobs (final (poll_loop w polls st)) = jobs st.
Proof.
  revert st. induction polls as [|polls IH]; intros st Hearly.
  - exists 0%nat. auto.
  - simpl poll_loop.
    pose proof (run_pending_quiet w st Hearly) as Hrp.
    rewrite (bind_returns _ _ _ tt) by (rewrite Hrp; reflexivity).
    rewrite Hrp. cbn [events result final].
    set (st1 := later (length (jobs st)) st).
    unfold bind. rewrite time_sleep_run. cbn [events result final].
    destruct (sleep_at w (tick st1)) as [e|].
    + exists 1%nat. split; [lia|]. split; reflexivity.
    + destruct (IH (bump st1)) as (k & Hk & Hev & Hjobs).
      { intros j Hj i Hi. apply Hearly; [exact Hj|]. simpl in Hi. lia. }
      destruct (poll_loop w polls (bump st1)) as [ev res fin]. cbn [events result final] in *.
      exists (S k). split; [lia|]. subst ev.
      destruct res; cbn [events result final]; auto.
Qed.

(** X7: as long as every clock reading is before the due time of every
    registered job, the loop only checks and sleeps: no POST, no line
    on the console, and the job list stays as it is. *)
Theorem poll_loop_quiet_until_due (w : World) (polls : nat) (st : state) :
  (forall j, In j (jobs st) -> forall k, (tick st <= k)%nat -> now_at w k < next_run j) ->
  (exists k, (k <= polls)%nat /\ events (poll_loop w polls st) = rounds k)
  /\ filter is_Post (events (poll_loop w polls st)) = []
  /\ jobs (final (poll_loop w polls st)) = jobs st.
Proof.
  intros Hearly.
  destruct (poll_loop_quiet_core w polls st Hearly) as (k & Hk & Hev & Hjobs).
  split; [exists k; auto|].
  split; [|exact Hjobs].
  rewrite Hev. apply rounds_no_post.
Qed.

Lemma waiting_jobs :
  jobs waiting = [new_job 1440 86400000000 (86400000000 * 738885) (send_water_reminder_of 0)]
  /\ tick waiting = 1%nat.
Proof. vm_compute. split; reflexivity. Qed.

Lemma poll_loop_quiet_until_due_witness :
  (exists k, (k <= 5)%nat /\ events (poll_loop flaky 5 waiting) = rounds k)
  /\ filter is_Post (events (poll_loop flaky 5 waiting)) = []
  /\ jobs (final (poll_loop flaky 5 waiting)) = jobs waiting.
Proof.
  apply (poll_loop_quiet_until_due flaky 5%nat waiting).
  rewrite (proj1 waiting_jobs).
  intros j [<-|[]] k _.
  pose proof (Z.mod_pos_bound (Z.of_nat k) 7 ltac:(lia)).
  cbn [now_at flaky next_run new_job]. lia.
Defined.

Section FirstInterval.

Variable w : World.

Lemma every_minutes_do_run n f st p :
  Datetime.timedelta_minutes n = inr p ->
  Datetime.in_range (now_at w (tick st) + p) = true ->
  Schedule.every_minutes_do w n f st =
    Run [Every n f] (Ret tt)
        (set_jobs (jobs st ++ [new_job n p (now_at w (tick st)) f]) (bump st)).
Proof.
  intros Hp Hrange.
  unfold Schedule.every_minutes_do, Schedule.schedule_next_run. cbn [interval].
  rewrite bind_emit, Hp, bind_assoc. unfold datetime_now. rewrite bind_ask.
  unfold Datetime.add. rewrite Hrange, bind_ret. reflexivity.
Qed.

End FirstInterval.

(** X8: from an empty schedule, with an interval of at least a minute
    that the scheduler can hold, the only POST [start_reminders] makes before the clock
    reaches the first due time (one interval after the reading taken at
    registration) is the welcome message. *)
Theorem start_reminders_waits_one_interval
    (w : World) (n : Z) (polls : nat) (self : nat) (b : WaterReminderBot)
    (st : state) (p : Z) :
  objs st !! self = Some b ->
  jobs st = [] ->
  1 <= n ->
  Datetime.timedelta_minutes n = inr p ->
  Datetime.in_range (now_at w (tick st) + p) = true ->
  (forall k, (tick st < k)%nat -> now_at w k < now_at w (tick st) + p) ->
  filter is_Post (events (start_reminders w n polls self st))
  = [delivery b (welcome_message n)].
Proof.
  intros Hself Hjobs _ Hp Hrange Hearly.
  pose proof (every_minutes_do_run w n (send_water_reminder_of self) st p Hp Hrange) as Hreg.
  rewrite start_reminders_events_all, Hreg. cbn [result final].
  rewrite Hjobs. cbn [app].
  set (j := new_job n p (now_at w (tick st)) (send_water_reminder_of self)).
  set (st1 := set_jobs [j] (bump st)).
  assert (Hself1 : objs st1 !! self = Some b) by exact Hself.
  assert (Hloop : forall st2, jobs st2 = [j] -> (tick st < tick st2)%nat ->
            filter is_Post (events (poll_loop w polls st2)) = []).
  { intros st2 Hj2 Ht2.
    destruct (poll_loop_quiet_core w polls st2) as (k & _ & -> & _);
      [|apply rounds_no_post].
    rewrite Hj2. intros j' [<-|[]] i Hi. apply Hearly. lia. }
  change (?a :: ?b0 :: ?c :: ?l) with ([a; b0; c] ++ l).
  rewrite filter_app. change (filter is_Post [_; _; _]) with (@nil event). cbn [app].
  rewrite filter_app.
  destruct (post_at w (tick st1)) as [resp|e] eqn:Hpost.
  - rewrite (send_message_replied w self b _ st1 Hself1 resp Hpost). cbn [events result final].
    rewrite Hloop by (simpl; auto; lia). reflexivity.
  - destruct (Py.is_Exception e) eqn:He.
    + rewrite (send_message_caught w self b _ st1 Hself1 e Hpost He). cbn [events result final].
      rewrite Hloop by (simpl; auto; lia). reflexivity.
    + rewrite (send_message_passes w self b _ st1 Hself1 e Hpost He). reflexivity.
Qed.

(** The clock of the [flaky] world stays within seven hours. *)
Lemma flaky_clock k :
  86400000000 * 738885 <= now_at flaky k < 86400000000 * 738885 + 7 * 3600000000.
Proof.
  cbn [now_at flaky].
  pose proof (Z.mod_pos_bound (Z.of_nat k) 7 ltac:(lia)). lia.
Qed.

Lemma start_reminders_waits_one_interval_witness :
  filter is_Post (events (start_reminders flaky 1440 4 0 one_bot))
  = [delivery (init "123:ABC" "42") (welcome_message 1440)].
Proof.
  apply (start_reminders_waits_one_interval flaky 1440 4%nat 0%nat
           (init "123:ABC" "42") one_bot (1440 * Datetime.us_per_minute)).
  - reflexivity.
  - reflexivity.
  - lia.
  - vm_compute. reflexivity.
  - vm_compute. reflexivity.
  - intros k _. pose proof (flaky_clock k) as Hk.
    change (now_at flaky (tick one_bot)) with (86400000000 * 738885 + 3600000000 * 0).
    unfold Datetime.us_per_minute. lia.
Defined.

(** ** A due job, and a world that never interrupts *)

Section Benign.

Variable w : World.
Variables (self : nat) (b : WaterReminderBot) (n p : Z).

(** The interval makes a period, every clock reading leaves room for
    it, and no POST is ended by anything but a reply or an
    [Exception]. *)
Hypothesis Hperiod : Datetime.timedelta_minutes n = inr p.
Hypothesis Hrange : forall k, Datetime.in_range (now_at w k + p) = true.
Hypothesis Hposts : forall k e, post_at w k = Failed e -> Py.is_Exception e = true.

Let mine (j : Job) : Prop :=
  job_func j = send_water_reminder_of self /\ interval j = n.

Lemma call_returns st :
  objs st !! self = Some b ->
  exists line,
    call w (send_water_reminder_of self) st =
      Run [ delivery b (reminder_text (now_at w (S (tick st))) (drawn w (tick st)));
            Print line ]
          (Ret tt) (later 3 st).
Proof.
  intros Hself.
  destruct (call_live w self b st Hself) as (log & res & Hrun & Hcases).
  destruct Hcases as [[-> [line ->]]|[_ (e & _ & He & Hp)]].
  - exists line. exact Hrun.
  - rewrite (Hposts _ e Hp) in He. discriminate.
Qed.

(** Running a due job of the bot: the reminder goes out, and the job's
    next due time is one period after a clock reading taken after the
    send. *)
Lemma run_job_returns i j st :
  objs st !! self = Some b ->
  mine j ->
  exists line,
    Schedule.run_job w (call w) i j st =
      Run [ delivery b (reminder_text (now_at w (2 + tick st)) (drawn w (1 + tick st)));
            Print line ]
          (Ret tt)
          (set_jobs
             (<[i := {| interval := n; period := p;
                        next_run := now_at w (5 + tick st) + p;
                        last_run := Some (now_at w (4 + tick st));
                        job_func := send_water_reminder_of self |}]> (jobs st))
             (later 6 st)).
Proof.
  intros Hself [Hf Hi].
  unfold Schedule.run_job, datetime_now. rewrite bind_ask, Hf.
  destruct (call_returns (bump st)) as (line & Hcall); [exact Hself|].
  exists line.
  rewrite (bind_returns _ _ _ tt) by (rewrite Hcall; reflexivity).
  rewrite Hcall. cbn [events result final].
  rewrite bind_ask. unfold Schedule.schedule_next_run. cbn [interval].
  rewrite Hi, Hperiod, bind_assoc. unfold datetime_now. rewrite bind_ask.
  unfold Datetime.add. rewrite Hrange, bind_ret, bind_get_jobs.
  reflexivity.
Qed.

Lemma run_all_returns l : forall st,
  objs st !! self = Some b ->
  Forall (fun x => mine (snd x)) l ->
  result (Schedule.run_all w (call w) l st) = Ret tt.
Proof.
  induction l as [|[i j] l IH]; intros st Hself Hl; [reflexivity|].
  inversion Hl as [|x l' Hj Hl']; subst. simpl in Hj.
  simpl Schedule.run_all.
  destruct (run_job_returns i j st Hself Hj) as (line & Hrun).
  rewrite result_bind, Hrun. cbn [result final].
  apply IH; [exact Hself|exact Hl'].
Qed.

Lemma run_pending_returns st :
  objs st !! self = Some b ->
  Forall mine (jobs st) ->
  result (Schedule.run_pending w (call w) st) = Ret tt.
Proof.
  intros Hself Hjobs.
  destruct (run_pending_shape w st) as (l & Hin & _ & ->). cbn [result].
  apply run_all_returns; [exact Hself|].
  eapply Forall_impl; [exact Hin|]. simpl. intros x Hx.
  rewrite Forall_forall in Hjobs. apply Hjobs, list_elem_of_In, Hx.
Qed.

Hypothesis Hsleep : forall k, sleep_at w k = None.

Lemma poll_loop_keeps_going polls : forall st,
  objs st !! self = Some b ->
  Forall mine (jobs st) ->
  result (poll_loop w polls st) = Unfinished.
Proof.
  induction polls as [|polls IH]; intros st Hself Hjobs; [reflexivity|].
  simpl poll_loop. rewrite result_bind, (run_pending_returns st Hself Hjobs).
  destruct (run_pending_jobs w mine st) as [Hjobs1 _]; [|exact Hjobs|].
  { intros j j' Hf Hi [Hf' Hi']. split; congruence. }
  pose proof (keeps_run_pending w st) as Hobjs.
  revert Hjobs1 Hobjs.
  generalize (final (Schedule.run_pending w (call w) st)). intros st1 Hjobs1 Hobjs.
  rewrite result_bind, time_sleep_run, Hsleep. cbn [result final].
  apply IH; [|exact Hjobs1]. simpl. rewrite Hobjs. exact Hself.
Qed.

End Benign.

(** X9: when the single registered job is due at a poll, that poll
    sends exactly one reminder, composed from a draw and a clock
    reading taken after the check, prints one line about it and
    returns; the job is rescheduled one period after a clock reading
    taken after the send.  (The interval makes a period, the clock
    leaves room for it, and the POST is answered or fails with an
    [Exception].) *)
Theorem run_pending_runs_due_job_once
    (w : World) (self : nat) (b : WaterReminderBot) (j : Job) (p : Z) (st : state) :
  objs st !! self = Some b ->
  jobs st = [j] ->
  job_func j = send_water_reminder_of self ->
  1 <= interval j ->
  next_run j <= now_at w (tick st) ->
  Datetime.timedelta_minutes (interval j) = inr p ->
  (forall k, Datetime.in_range (now_at w k + p) = true) ->
  (forall k e, post_at w k = Failed e -> Py.is_Exception e = true) ->
  exists k1 k2 line j',
    (tick st < k1)%nat /\ (S (S k1) < k2)%nat
    /\ events (Schedule.run_pending w (call w) st)
       = [ RunPending;
           delivery b (reminder_text (now_at w (S k1)) (drawn w k1));
           Print line ]
    /\ result (Schedule.run_pending w (call w) st) = Ret tt
    /\ jobs (final (Schedule.run_pending w (call w) st)) = [j']
    /\ next_run j' = now_at w k2 + p
    /\ interval j' = interval j
    /\ job_func j' = job_func j.
Proof.
  intros Hself Hjobs Hf _ Hdue Hperiod Hrange Hposts.
  unfold Schedule.run_pending. rewrite bind_emit, bind_get_jobs, Hjobs.
  cbn [Schedule.runnable]. unfold Schedule.should_run, datetime_now.
  rewrite !bind_assoc, bind_ask, bind_ret, !bind_assoc, bind_ret, bind_ret.
  assert ((next_run j <=? now_at w (tick st)) = true) as -> by (apply Z.leb_le; exact Hdue).
  cbn [Schedule.sorted fold_right Schedule.insert_by_next_run Schedule.run_all].
  destruct (run_job_returns w self b (interval j) p Hperiod Hrange Hposts
              0%nat j (bump st) Hself (conj Hf eq_refl)) as (line & Hrun).
  rewrite (bind_returns _ _ _ tt) by (rewrite Hrun; reflexivity).
  rewrite Hrun. cbn [events result final ret app jobs set_jobs later bump tick].
  rewrite Hjobs. cbn [insert list_insert].
  exists (2 + tick st)%nat, (6 + tick st)%nat, line. eexists.
  split; [lia|]. split; [lia|]. split; [reflexivity|]. split; [reflexivity|].
  split; [reflexivity|]. split; [reflexivity|]. split; [reflexivity|].
  symmetry. exact Hf.
Qed.

(** X10: a bot whose interval the scheduler can hold, in a world where
    nothing interrupts the sleep and the clock leaves room for the
    interval, is still running after any number of rounds, whatever
    the endpoint answers and however often the transport fails. *)
Theorem start_reminders_survives_delivery_failures
    (w : World) (n p : Z) (polls : nat) (self : nat) (b : WaterReminderBot)
    (st : state) :
  objs st !! self = Some b ->
  jobs st = [] ->
  1 <= n ->
  Datetime.timedelta_minutes n = inr p ->
  (forall k, Datetime.in_range (now_at w k + p) = true) ->
  (forall k e, post_at w k = Failed e -> Py.is_Exception e = true) ->
  (forall k, sleep_at w k = None) ->
  result (start_reminders w n polls self st) = Unfinished.
Proof.
  intros Hself Hjobs _ Hperiod Hrange Hposts Hsleep.
  unfold start_reminders, print. rewrite !bind_emit. cbn [result].
  rewrite result_bind.
  rewrite (every_minutes_do_run w n _ st p Hperiod (Hrange _)). cbn [result final].
  rewrite Hjobs. cbn [app].
  set (j := new_job n p (now_at w (tick st)) (send_water_reminder_of self)).
  set (st1 := set_jobs [j] (bump st)).
  assert (Hself1 : objs st1 !! self = Some b) by exact Hself.
  rewrite result_bind.
  assert (Hsent : send_message w self (welcome_message n) st1
                  = Run (events (send_message w self (welcome_message n) st1))
                        (Ret tt) (bump st1)).
  { destruct (post_at w (tick st1)) as [resp|e] eqn:Hp.
    - rewrite (send_message_replied w self b _ st1 Hself1 resp Hp). reflexivity.
    - rewrite (send_message_caught w self b _ st1 Hself1 e Hp (Hposts _ e Hp)).
      reflexivity. }
  rewrite Hsent. cbn [result final].
  apply (poll_loop_keeps_going w self b n p Hperiod Hrange Hposts Hsleep);
    [exact Hself|].
  repeat constructor.
Qed.

Lemma in_range_spec t :
  Datetime.in_range t = true <-> 0 <= t < Datetime.end_of_time.
Proof.
  unfold Datetime.in_range. rewrite andb_true_iff, Z.leb_le, Z.ltb_lt. reflexivity.
Qed.

Lemma flaky_room k : Datetime.in_range (now_at flaky k + 3600000000) = true.
Proof.
  apply in_range_spec. pose proof (flaky_clock k) as Hk.
  unfold Datetime.end_of_time. lia.
Qed.

Lemma flaky_posts k e : post_at flaky k = Failed e -> Py.is_Exception e = true.
Proof.
  cbn [post_at flaky]. destruct (Nat.even k); [discriminate|].
  intros [= <-]. reflexivity.
Qed.

Lemma start_reminders_survives_delivery_failures_witness :
  result (start_reminders flaky 60 6 0 one_bot) = Unfinished.
Proof.
  apply (start_reminders_survives_delivery_failures flaky 60 3600000000 6%nat 0%nat
           (init "123:ABC" "42") one_bot).
  - reflexivity.
  - reflexivity.
  - lia.
  - vm_compute. reflexivity.
  - exact flaky_room.
  - exact flaky_posts.
  - reflexivity.
Defined.

Lemma run_pending_runs_due_job_once_witness :
  exists k1 k2 line j',
    (tick due_now < k1)%nat /\ (S (S k1) < k2)%nat
    /\ events (Schedule.run_pending flaky (call flaky) due_now)
       = [ RunPending;
           delivery (init "123:ABC" "42")
             (reminder_text (now_at flaky (S k1)) (drawn flaky k1));
           Print line ]
    /\ result (Schedule.run_pending flaky (call flaky) due_now) = Ret tt
    /\ jobs (final (Schedule.run_pending flaky (call flaky) due_now)) = [j']
    /\ next_run j' = now_at flaky k2 + 3600000000
    /\ interval j' = 60
    /\ job_func j' = send_water_reminder_of 0.
Proof.
  apply (run_pending_runs_due_job_once flaky 0%nat (init "123:ABC" "42")
           {| interval := 60; period := 3600000000;
              next_run := 86400000000 * 738885; last_run := None;
              job_func := send_water_reminder_of 0 |}
           3600000000 due_now).
  - reflexivity.
  - reflexivity.
  - reflexivity.
  - simpl. lia.
  - vm_compute. discriminate.
  - vm_compute. reflexivity.
  - exact flaky_room.
  - exact flaky_posts.
Defined.

(** The poor connection at work: the due reminder is refused by the
    endpoint, the failure is printed, and the loop goes on. *)
Example flaky_run :
  List.map (fun e => match e with
                     | Print line => String.substring 0 10 line
                     | Post _ _ => "POST"
                     | Every _ _ => "every"
                     | RunPending => "poll"
                     | Sleep _ => "sleep"
                     end)
           (events (poll_loop flaky 2 due_now))
  = [ "poll"; "POST"; "❌ Failed"; "sleep"; "poll"; "sleep" ]
  /\ result (poll_loop flaky 2 due_now) = Unfinished.
Proof. vm_compute. split; reflexivity. Qed.

(** ** Reading back a number written in decimal *)

Lemma digit_val_pretty_N_char d :
  (d < 10)%N -> Py.digit_val (pretty_N_char d) = Some (Z.of_N d).
Proof.
  intros Hd.
  assert (d = 0 \/ d = 1 \/ d = 2 \/ d = 3 \/ d = 4 \/ d = 5 \/ d = 6 \/ d = 7
          \/ d = 8 \/ d = 9)%N as H by lia.
  repeat (destruct H as [->|H]; [reflexivity|]). subst; reflexivity.
Qed.

(** Reading the digits of [x] written in front of [s] moves the
    accumulator on by those digits; from 0 it ends at [x]. *)
Lemma digits_tail_pretty_N_go x : forall s acc,
  exists acc',
    Py.digits_tail acc (pretty_N_go x s) = Py.digits_tail acc' s
    /\ (acc = 0 -> acc' = Z.of_N x).
Proof.
  induction (N.lt_wf_0 x) as [x _ IH]. intros s acc.
  destruct (N.eq_dec x 0%N) as [->|Hx].
  - rewrite pretty_N_go_0. exists acc. auto.
  - rewrite pretty_N_go_step by lia.
    destruct (IH (x `div` 10)%N ltac:(apply N.div_lt; lia)
                (String (pretty_N_char (x `mod` 10)) s) acc) as (a1 & Heq & Ha1).
    exists (10 * a1 + Z.of_N (x `mod` 10)). split.
    + rewrite Heq. cbn [Py.digits_tail].
      rewrite digit_val_pretty_N_char by (apply N.mod_lt; lia). reflexivity.
    + intros Hacc. rewrite (Ha1 Hacc).
      rewrite (N.div_mod x 10) at 3 by lia. lia.
Qed.

(** A positive number written in decimal begins with a digit. *)
Lemma pretty_N_go_head x : forall s,
  (0 < x)%N ->
  exists c s' d, pretty_N_go x s = String c s' /\ Py.digit_val c = Some d.
Proof.
  induction (N.lt_wf_0 x) as [x _ IH]. intros s Hx.
  rewrite pretty_N_go_step by exact Hx.
  destruct (N.eq_dec (x `div` 10)%N 0%N) as [->|Hq].
  - rewrite pretty_N_go_0. do 3 eexists. split; [reflexivity|].
    apply digit_val_pretty_N_char, N.mod_lt. lia.
  - apply IH; [apply N.div_lt; lia|]. apply N.neq_0_lt_0. exact Hq.
Qed.

(** A text that begins with a digit is read from its first character,
    and its digits are counted from there. *)
Lemma digit_first c s d :
  Py.digit_val c = Some d ->
  Py.int_literal (String c s) = Py.digits_tail 0 (String c s)
  /\ Py.digits (String c s) = Py.digits_tail 0 (String c s)
  /\ Py.unsigned (String c s) = String c s
  /\ Py.unsigned (String "-" (String c s)) = String c s
  /\ Ascii.eqb c "_" = false.
Proof.
  intros Hd.
  destruct c as [[] [] [] [] [] [] [] []]; try discriminate Hd;
    injection Hd as <-; repeat split; reflexivity.
Qed.

(** The scan counts the digits of [x] written in front of [s]; a
    number of [k] digits is at least [10 ^ (k - 1)]. *)
Lemma scan_run_pretty_N_go x : forall s k0,
  Py.scan_run false s = Some k0 ->
  exists k,
    Py.scan_run false (pretty_N_go x s) = Some (k + k0)%nat
    /\ ((x = 0%N /\ k = O)
        \/ ((0 < x)%N /\ (1 <= k)%nat /\ 10 ^ (Z.of_nat k - 1) <= Z.of_N x)).
Proof.
  induction (N.lt_wf_0 x) as [x _ IH]. intros s k0 Hs.
  destruct (N.eq_dec x 0%N) as [->|Hx].
  - rewrite pretty_N_go_0. exists O. auto.
  - rewrite pretty_N_go_step by lia.
    destruct (IH (x `div` 10)%N ltac:(apply N.div_lt; lia)
                (String (pretty_N_char (x `mod` 10)) s) (S k0)) as (k' & Hscan & Hk').
    { cbn [Py.scan_run].
      rewrite digit_val_pretty_N_char by (apply N.mod_lt; lia).
      rewrite Hs. reflexivity. }
    exists (S k'). split; [rewrite Hscan; f_equal; lia|].
    right. split; [lia|]. split; [lia|].
    replace (Z.of_nat (S k') - 1) with (Z.of_nat k') by lia.
    assert (Hdm : Z.of_N x = 10 * Z.of_N (x `div` 10) + Z.of_N (x `mod` 10)).
    { rewrite (N.div_mod x 10) at 1 by lia.
      rewrite N2Z.inj_add, N2Z.inj_mul. reflexivity. }
    pose proof (N2Z.is_nonneg (x `mod` 10)) as Hm.
    destruct Hk' as [[Hq ->]|(Hq & Hk1 & Hpow)].
    + change (10 ^ Z.of_nat 0) with 1. lia.
    + replace (Z.of_nat k') with (Z.succ (Z.of_nat k' - 1)) by lia.
      rewrite Z.pow_succ_r by lia.
      revert Hpow Hdm Hm.
      generalize (10 ^ (Z.of_nat k' - 1)) (Z.of_N (x `div` 10)) (Z.of_N (x `mod` 10))
                 (Z.of_N x).
      intros; lia.
Qed.

Lemma too_long_digit_first c s d b :
  Py.digit_val c = Some d ->
  Py.unsigned b = String c s ->
  Py.too_long b =
    match Py.scan_run false (String c s) with
    | Some k => if (Py.int_max_str_digits <? k)%nat then Some k else None
    | None => None
    end.
Proof.
  intros Hd Hb. unfold Py.too_long. rewrite Hb.
  destruct c as [[] [] [] [] [] [] [] []]; try discriminate Hd; reflexivity.
Qed.

(** A number below [10 ^ 4300] is not too long to be read. *)
Lemma too_long_pretty_N x :
  (0 < x)%N ->
  Z.of_N x < 10 ^ 4300 ->
  Py.too_long (pretty_N_go x "") = None
  /\ Py.too_long (String "-" (pretty_N_go x "")) = None.
Proof.
  intros Hx Hsmall.
  destruct (scan_run_pretty_N_go x "" O eq_refl) as (k & Hscan & Hk).
  destruct Hk as [[-> _]|(_ & Hk1 & Hpow)]; [lia|].
  assert (Hk : (k <= 4300)%nat).
  { assert (Hlt : 10 ^ (Z.of_nat k - 1) < 10 ^ 4300) by lia.
    apply Z.pow_lt_mono_r_iff in Hlt; lia. }
  destruct (pretty_N_go_head x "" Hx) as (c & s' & d & Heq & Hd).
  destruct (digit_first c s' d Hd) as (_ & _ & Hu & Hum & Hc).
  assert (Hbody : forall b, Py.unsigned b = String c s' ->
            Py.too_long b = None).
  { intros b Hb. rewrite (too_long_digit_first c s' d b Hd Hb).
    rewrite <- Heq, Hscan, Nat.add_0_r.
    unfold Py.int_max_str_digits.
    destruct (Nat.ltb_spec 4300 k); [lia|reflexivity]. }
  rewrite Heq. split; apply Hbody; assumption.
Qed.

Lemma int_literal_pretty_N x :
  (0 < x)%N ->
  Py.int_literal (pretty_N_go x "") = Some (Z.of_N x)
  /\ Py.digits (pretty_N_go x "") = Some (Z.of_N x).
Proof.
  intros Hx.
  destruct (pretty_N_go_head x "" Hx) as (c & s' & d & Heq & Hd).
  destruct (digits_tail_pretty_N_go x "" 0) as (acc' & Hread & Hacc).
  rewrite (Hacc eq_refl) in Hread. cbn [Py.digits_tail] in Hread.
  rewrite Heq in *.
  destruct (digit_first c s' d Hd) as (-> & -> & _). auto.
Qed.

Lemma int_of_str_of_int (n : Z) :
  Z.abs n < 10 ^ 4300 -> Py.int_of_str (Py.str_of_int n) = Some n.
Proof.
  intros Hn. unfold Py.str_of_int, Py.int_of_str, Py.to_int.
  destruct n as [|q|q].
  - reflexivity.
  - change (pretty (Z.pos q)) with (pretty_N_go (N.pos q) "").
    destruct (too_long_pretty_N (N.pos q)) as [-> _]; [lia|exact Hn|].
    destruct (int_literal_pretty_N (N.pos q)) as [-> _]; [lia|reflexivity].
  - change (pretty (Z.neg q)) with (String "-" (pretty_N_go (N.pos q) "")).
    destruct (too_long_pretty_N (N.pos q)) as [_ ->]; [lia|exact Hn|].
    change (Py.int_literal (String "-" ?s)) with (Z.opp <$> Py.digits s).
    destruct (int_literal_pretty_N (N.pos q)) as [_ ->]; [lia|reflexivity].
Qed.

Lemma int_of_str_leading_blank s :
  Py.int_of_str (String " " s) = Py.int_of_str s.
Proof.
  unfold Py.int_of_str, Py.to_int.
  change (Py.too_long (String " " s)) with (Py.too_long s).
  change (Py.int_literal (String " " s)) with (Py.int_literal s).
  destruct (Py.too_long s); [reflexivity|].
  destruct (Py.int_literal s); reflexivity.
Qed.

(** X12: an interval written in decimal is read back as the same
    number: for every integer [n] (of at most 4300 digits, the length
    CPython converts), with [REMINDER_INTERVAL] set to [str(n)] the
    loaded interval is [n], negative numbers and zero included;
    surrounding blanks do not matter. *)
Theorem load_interval_reads_back (environ : gmap string string) (n : Z) :
  Z.abs n < 10 ^ 4300 ->
  load_interval (<["REMINDER_INTERVAL" := Py.str_of_int n]> environ) = inr n
  /\ load_interval (<["REMINDER_INTERVAL" := " " +:+ Py.str_of_int n]> environ) = inr n.
Proof.
  intros Hn. unfold load_interval, environ_get.
  rewrite !lookup_insert_eq.
  change (" " +:+ Py.str_of_int n) with (String " " (Py.str_of_int n)).
  split; apply to_int_value.
  - apply int_of_str_of_int. exact Hn.
  - rewrite int_of_str_leading_blank. apply int_of_str_of_int. exact Hn.
Qed.

Lemma load_interval_reads_back_witness :
  load_interval (<["REMINDER_INTERVAL" := Py.str_of_int (-90)]> sample_environ)
  = inr (-90)
  /\ load_interval (<["REMINDER_INTERVAL" := " " +:+ Py.str_of_int (-90)]> sample_environ)
     = inr (-90).
Proof.
  apply (load_interval_reads_back sample_environ (-90)).
  vm_compute. reflexivity.
Defined.

(** ** The time stamp, to the minute *)

(** X13: whatever the clock reads, the time stamp of a reminder is
    five characters: the two decimal digits of the hour of the day (00
    to 23), a colon, the two decimal digits of the minute of the hour
    (00 to 59), in this order; two readings give the same stamp exactly
    when they agree on the hour and on the minute. *)
Theorem strftime_HM_to_the_minute (t t' : Z) :
  let h := (t / 3600000000) mod 24 in
  let m := (t / 60000000) mod 60 in
  Datetime.strftime_HM t =
    String (digit_char (h / 10)) (String (digit_char (h mod 10))
      (String ":"
        (String (digit_char (m / 10)) (String (digit_char (m mod 10)) ""))))
  /\ Datetime.hour t = h /\ Datetime.minute t = m
  /\ 0 <= h / 10 < 3 /\ 0 <= h mod 10 < 10 /\ 0 <= m / 10 < 6 /\ 0 <= m mod 10 < 10
  /\ String.length (Datetime.strftime_HM t) = 5%nat
  /\ String.get 2 (Datetime.strftime_HM t) = Some ":"%char
  /\ 0 <= Datetime.hour t < 24
  /\ 0 <= Datetime.minute t < 60
  /\ (Datetime.strftime_HM t = Datetime.strftime_HM t'
      <-> Datetime.hour t = Datetime.hour t'
          /\ Datetime.minute t = Datetime.minute t').
Proof.
  intros h m.
  pose proof (hour_range t) as Hh. pose proof (minute_range t) as Hm.
  pose proof (hour_range t') as Hh'. pose proof (minute_range t') as Hm'.
  split; [apply strftime_HM_hh_mm|].
  split; [reflexivity|]. split; [reflexivity|].
  change h with (Datetime.hour t). change m with (Datetime.minute t).
  split; [split; [apply Z.div_pos; lia|apply Z.div_lt_upper_bound; lia]|].
  split; [apply Z.mod_pos_bound; lia|].
  split; [split; [apply Z.div_pos; lia|apply Z.div_lt_upper_bound; lia]|].
  split; [apply Z.mod_pos_bound; lia|].
  unfold Datetime.strftime_HM.
  rewrite (two_digits_chars (Datetime.hour t)), (two_digits_chars (Datetime.minute t)),
    (two_digits_chars (Datetime.hour t')), (two_digits_chars (Datetime.minute t'))
    by lia.
  split; [reflexivity|]. split; [reflexivity|]. split; [exact Hh|]. split; [exact Hm|].
  split.
  - cbn [String.app]. intros [= H1 H0 M1 M0].
    split; apply two_digits_inj; try lia; rewrite !two_digits_chars by lia; congruence.
  - intros [-> ->]. reflexivity.
Qed.
